(** * dustcast: the caching core and the computation pipeline of [app.py]

    A shallow embedding of [SmartCache], [cached_operation] and
    [TashkentDustAnalyzer], followed by the properties the specification
    states about them.

    Conventions of the embedding.
    - Python values are the inductive type [pyval]; a [dict] is an
      association list in insertion order, as CPython keeps it.
    - Python floats are idealised as exact rationals ([Q]).
    - The process state (clock, the two cache directories, the counters of
      the global [cache] object, the random generator) is the record
      [world]; code is written in the state-and-exception monad [M].
      An exception keeps the state changes made before it, as in Python.
    - [exn] stands for instances of subclasses of [Exception], which is
      what every [except Exception] clause of the source catches.
    - Library functions that the repository only calls ([str], [md5],
      [os.path.getsize], [round], [numpy.sin], [strftime], ...) are the
      fields of the class [Builtins]. *)

From Stdlib Require Import QArith Lqa Qminmax Permutation Sorted OrderedTypeEx.
From stdpp Require Import gmap strings pretty list fin_maps.

Local Open Scope Z_scope.

(** ** Python values *)

#[warnings="-register-all"]
Inductive pyval : Type :=
| VNone
| VBool (b : bool)
| VInt (z : Z)
| VFloat (q : Q)
| VStr (s : string)
| VList (l : list pyval)
| VTuple (l : list pyval)
| VDict (d : list (string * pyval))
| VOpaque (descr : string).
(** [VOpaque] is any object that [pickle] refuses: a lambda, an open handle,
    a proxy of the remote session. *)

Definition pydict := list (string * pyval).

(** [type(v).__name__] *)
Definition type_name (v : pyval) : string :=
  match v with
  | VNone => "NoneType"
  | VBool _ => "bool"
  | VInt _ => "int"
  | VFloat _ => "float"
  | VStr _ => "str"
  | VList _ => "list"
  | VTuple _ => "tuple"
  | VDict _ => "dict"
  | VOpaque _ => "object"
  end.

Fixpoint picklable (v : pyval) : bool :=
  match v with
  | VOpaque _ => false
  | VList l => forallb picklable l
  | VTuple l => forallb picklable l
  | VDict d => forallb (fun kv => picklable (snd kv)) d
  | _ => true
  end.

(** [v is not None] *)
Definition is_not_None (v : pyval) : bool :=
  match v with VNone => false | _ => true end.

(** *** Dictionaries

    [d[k] = v] replaces the value of an existing key in place and appends a
    new key at the end. *)

Fixpoint dict_get (k : string) (d : pydict) : option pyval :=
  match d with
  | [] => None
  | (k', v) :: d' => if String.eqb k k' then Some v else dict_get k d'
  end.

Fixpoint dict_set (k : string) (v : pyval) (d : pydict) : pydict :=
  match d with
  | [] => [(k, v)]
  | (k', v') :: d' =>
      if String.eqb k k' then (k, v) :: d' else (k', v') :: dict_set k v d'
  end.

(** [d.update(e)], also the meaning of [{**d, **e}] *)
Definition dict_update (d e : pydict) : pydict :=
  fold_left (fun acc kv => dict_set (fst kv) (snd kv) acc) e d.

(** [k in d] *)
Definition dict_mem (k : string) (d : pydict) : bool :=
  match dict_get k d with Some _ => true | None => false end.

(** ** Rational comparisons *)

Definition Qltb (a b : Q) : bool := negb (Qle_bool b a).

(** Truth value of a number: zero is false. *)
Definition truthy (q : Q) : bool := negb (Qeq_bool q 0).

(** [max(a, b)] and [min(a, b)] return the first argument on a tie. *)
Definition py_max (a b : Q) : Q := if Qltb a b then b else a.
Definition py_min (a b : Q) : Q := if Qltb b a then b else a.

(** ** Exceptions and the monad *)

Record exn := Exn { exn_class : string; exn_msg : string }.

(** [str(e)] *)
Definition exn_str (e : exn) : string := exn_msg e.

Inductive outcome (A : Type) : Type :=
| Ok (a : A)
| Raise (e : exn).
Arguments Ok {A} a.
Arguments Raise {A} e.

(** ** The process state *)

Record metadata := {
  m_key : string;
  m_timestamp : string;
  m_size_bytes : Z;
  m_data_type : string
}.

(** The bytes of a file, seen through what reading them back gives:
    [Pickled v] is a record from which [pickle.load] returns [v],
    [Json m] a metadata record, [Corrupt] a file that cannot be read back
    (unreadable, empty or truncated). *)
Inductive content :=
| Pickled (v : pyval)
| Json (m : metadata)
| Corrupt.

Record file := {
  f_content : content;
  f_mtime : Q
}.

Record dir := {
  d_files : gmap string file;
  d_writable : bool
}.

(** [cache.stats] *)
Record Stats := {
  hits : Z;
  misses : Z;
  saves : Z;
  errors : Z
}.

Record world := {
  w_clock : Q;          (* what time.time() returns *)
  w_data : dir;         (* <cache_dir>/data *)
  w_meta : dir;         (* <cache_dir>/metadata *)
  w_default_ttl : Z;    (* cache.default_ttl, in seconds *)
  w_stats : Stats;      (* cache.stats *)
  w_rng : nat           (* number of draws taken from numpy.random *)
}.

Definition M (A : Type) : Type := world -> outcome A * world.

Definition ret {A} (a : A) : M A := fun w => (Ok a, w).

Definition bind {A B} (c : M A) (k : A -> M B) : M B :=
  fun w =>
    match c w with
    | (Ok a, w') => k a w'
    | (Raise e, w') => (Raise e, w')
    end.

Definition raise {A} (e : exn) : M A := fun w => (Raise e, w).

(** [try: body  except Exception as e: handler e] *)
Definition try_except {A} (body : M A) (handler : exn -> M A) : M A :=
  fun w =>
    match body w with
    | (Ok a, w') => (Ok a, w')
    | (Raise e, w') => handler e w'
    end.

Notation "'let!' x ':=' c 'in' k" := (bind c (fun x => k))
  (at level 10, x pattern, c at level 100, k at level 200).
Notation "c '>>' k" := (bind c (fun _ => k))
  (at level 90, right associativity).

(** ** Library functions *)

Class Builtins := {
  py_str : pyval -> string;              (* str(v) *)
  py_eq : pyval -> pyval -> bool;        (* v == w on values *)
  py_lt : pyval -> pyval -> bool;        (* v < w on values *)
  md5_hexdigest : string -> string;      (* hashlib.md5(s.encode()).hexdigest() *)
  getsize : content -> Z;                (* os.path.getsize *)
  isoformat : Q -> string;               (* datetime.now().isoformat() *)
  py_round : Q -> Z -> Q;                (* round(x, ndigits) *)
  strftime : string -> Q -> Z -> string; (* (now + timedelta(days=i)).strftime(fmt) *)
  tm_yday : Q -> Z -> Z;                 (* (now + timedelta(days=i)).timetuple().tm_yday *)
  month_of : Q -> Z -> Z;                (* (now + timedelta(days=i)).month *)
  np_sin : Q -> Q;                       (* numpy.sin *)
  np_pi : Q;                             (* numpy.pi *)
  random_draw : nat -> Q                 (* the n-th value of numpy.random.random() *)
}.

(** ** File system *)

Inductive cache_type := data | metadata_dir.

Definition path := (cache_type * string)%type.

Definition dir_of (ct : cache_type) (w : world) : dir :=
  match ct with data => w_data w | metadata_dir => w_meta w end.

Definition with_dir (ct : cache_type) (d : dir) (w : world) : world :=
  match ct with
  | data =>
      {| w_clock := w_clock w; w_data := d; w_meta := w_meta w;
         w_default_ttl := w_default_ttl w; w_stats := w_stats w; w_rng := w_rng w |}
  | metadata_dir =>
      {| w_clock := w_clock w; w_data := w_data w; w_meta := d;
         w_default_ttl := w_default_ttl w; w_stats := w_stats w; w_rng := w_rng w |}
  end.

Definition with_stats (s : Stats) (w : world) : world :=
  {| w_clock := w_clock w; w_data := w_data w; w_meta := w_meta w;
     w_default_ttl := w_default_ttl w; w_stats := s; w_rng := w_rng w |}.

(** The same process state at a later (or another) clock reading *)
Definition at_time (t : Q) (w : world) : world :=
  {| w_clock := t; w_data := w_data w; w_meta := w_meta w;
     w_default_ttl := w_default_ttl w; w_stats := w_stats w; w_rng := w_rng w |}.

Definition lookup_file (p : path) (w : world) : option file :=
  d_files (dir_of (fst p) w) !! snd p.

Definition time_time : M Q := fun w => (Ok (w_clock w), w).

Definition os_path_exists (p : path) : M bool :=
  fun w => (Ok (match lookup_file p w with Some _ => true | None => false end), w).

Definition os_path_getmtime (p : path) : M Q :=
  fun w =>
    match lookup_file p w with
    | Some f => (Ok (f_mtime f), w)
    | None => (Raise (Exn "FileNotFoundError" (snd p)), w)
    end.

Definition os_path_getsize `{Builtins} (p : path) : M Z :=
  fun w =>
    match lookup_file p w with
    | Some f => (Ok (getsize (f_content f)), w)
    | None => (Raise (Exn "FileNotFoundError" (snd p)), w)
    end.

(** [os.listdir] of one of the two cache directories *)
Definition os_listdir (ct : cache_type) : M (list string) :=
  fun w => (Ok ((map_to_list (d_files (dir_of ct w))).*1), w).

(** The state with file [p] holding [f], and with no file [p] *)
Definition put_file (p : path) (f : file) (w : world) : world :=
  let d := dir_of (fst p) w in
  with_dir (fst p)
    {| d_files := <[snd p := f]> (d_files d); d_writable := d_writable d |} w.

Definition remove_file (p : path) (w : world) : world :=
  let d := dir_of (fst p) w in
  with_dir (fst p)
    {| d_files := delete (snd p) (d_files d); d_writable := d_writable d |} w.

Definition os_remove (p : path) : M unit :=
  fun w =>
    match lookup_file p w with
    | None => (Raise (Exn "FileNotFoundError" (snd p)), w)
    | Some _ =>
        if d_writable (dir_of (fst p) w)
        then (Ok tt, remove_file p w)
        else (Raise (Exn "PermissionError" (snd p)), w)
    end.

(** [open(p, 'w')] or [open(p, 'wb')]: the file is created or truncated. *)
Definition open_truncate (p : path) : M unit :=
  fun w =>
    if d_writable (dir_of (fst p) w) then
      (Ok tt, put_file p {| f_content := Corrupt; f_mtime := w_clock w |} w)
    else (Raise (Exn "PermissionError" (snd p)), w).

(** Writing to the file just opened. *)
Definition write_content (p : path) (c : content) : M unit :=
  fun w =>
    match lookup_file p w with
    | None => (Raise (Exn "FileNotFoundError" (snd p)), w)
    | Some _ =>
        (Ok tt, put_file p {| f_content := c; f_mtime := w_clock w |} w)
    end.

(** [with open(p, 'wb') as f: pickle.dump(v, f)] *)
Definition pickle_dump_file (v : pyval) (p : path) : M unit :=
  open_truncate p >>
  if picklable v then write_content p (Pickled v)
  else raise (Exn "PicklingError" (type_name v)).

(** [with open(p, 'w') as f: json.dump(m, f, indent=2)] *)
Definition json_dump_file (m : metadata) (p : path) : M unit :=
  open_truncate p >> write_content p (Json m).

(** [with open(p, 'rb') as f: pickle.load(f)] *)
Definition pickle_load_file (p : path) : M pyval :=
  fun w =>
    match lookup_file p w with
    | None => (Raise (Exn "FileNotFoundError" (snd p)), w)
    | Some f =>
        match f_content f with
        | Pickled v => (Ok v, w)
        | _ => (Raise (Exn "UnpicklingError" (snd p)), w)
        end
    end.

(** ** Sorting the keyword arguments *)

(** [a < b] on [(name, value)] tuples: the names decide unless they are
    equal; only then are the values looked at, first with [==] and, when
    they differ, with [<]. The items of a dict have distinct names. *)
Definition item_lt `{Builtins} (a b : string * pyval) : bool :=
  if String.eqb (fst a) (fst b) then
    if py_eq (snd a) (snd b) then false else py_lt (snd a) (snd b)
  else String.ltb (fst a) (fst b).

Fixpoint insert_sorted {A} (lt : A -> A -> bool) (x : A) (l : list A) : list A :=
  match l with
  | [] => [x]
  | y :: l' => if lt x y then x :: y :: l' else y :: insert_sorted lt x l'
  end.

(** [sorted(l)]: a stable sort that only asks [<]. *)
Definition sorted {A} (lt : A -> A -> bool) (l : list A) : list A :=
  fold_left (fun acc x => insert_sorted lt x acc) l [].

Definition items_as_tuples (items : pydict) : pyval :=
  VList (map (fun kv => VTuple [VStr (fst kv); snd kv]) items).

(** ** SmartCache *)

Module SmartCache.

Inductive counter := c_hits | c_misses | c_saves | c_errors.

Definition bump (c : counter) (w : world) : world :=
  let s := w_stats w in
  with_stats
    match c with
    | c_hits => {| hits := hits s + 1; misses := misses s; saves := saves s; errors := errors s |}
    | c_misses => {| hits := hits s; misses := misses s + 1; saves := saves s; errors := errors s |}
    | c_saves => {| hits := hits s; misses := misses s; saves := saves s + 1; errors := errors s |}
    | c_errors => {| hits := hits s; misses := misses s; saves := saves s; errors := errors s + 1 |}
    end w.

(** [self.stats[c] += 1] *)
Definition incr (c : counter) : M unit :=
  fun w => (Ok tt, bump c w).

(** The fingerprint of a call: positional arguments in order, keyword
    arguments sorted by name *)
Definition generate_cache_key `{Builtins}
  (args : list pyval) (kwargs : pydict) : string :=
  let content :=
    py_str (VTuple args) +:+ py_str (items_as_tuples (sorted item_lt kwargs)) in
  md5_hexdigest content.

Definition get_cache_path (cache_key : string) (ct : cache_type) : path :=
  (ct, cache_key +:+ ".pkl").

(** [ttl_seconds or self.default_ttl] *)
Definition ttl_or_default (ttl_seconds : option Q) (default_ttl : Z) : Q :=
  match ttl_seconds with
  | Some t => if truthy t then t else inject_Z default_ttl
  | None => inject_Z default_ttl
  end.

(** [self.default_ttl] *)
Definition self_default_ttl : M Z := fun w => (Ok (w_default_ttl w), w).

Definition is_cache_valid (cache_path : path) (ttl_seconds : option Q) : M bool :=
  let! ex := os_path_exists cache_path in
  if negb ex then ret false
  else
    let! default_ttl := self_default_ttl in
    let ttl := ttl_or_default ttl_seconds default_ttl in
    let! now := time_time in
    let! mt := os_path_getmtime cache_path in
    let file_age := (now - mt)%Q in
    ret (Qltb file_age ttl).

(** [(ttl_minutes * 60) if ttl_minutes else None] *)
Definition ttl_seconds_of (ttl_minutes : option Q) : option Q :=
  match ttl_minutes with
  | Some m => if truthy m then Some (m * 60)%Q else None
  | None => None
  end.

Definition get (cache_key : string) (ttl_minutes : option Q) : M pyval :=
  try_except
    (let ttl_seconds := ttl_seconds_of ttl_minutes in
     let cache_path := get_cache_path cache_key data in
     let! valid := is_cache_valid cache_path ttl_seconds in
     if valid then
       let! d := pickle_load_file cache_path in
       incr c_hits >>
       ret d
     else
       incr c_misses >>
       ret VNone)
    (fun e => incr c_errors >> ret VNone).

Definition set `{Builtins} (cache_key : string) (v : pyval) : M unit :=
  try_except
    (let cache_path := get_cache_path cache_key data in
     pickle_dump_file v cache_path >>
     let! now := time_time in
     let! sz := os_path_getsize cache_path in
     let md := {| m_key := cache_key;
                  m_timestamp := isoformat now;
                  m_size_bytes := sz;
                  m_data_type := type_name v |} in
     let metadata_path := get_cache_path cache_key metadata_dir in
     json_dump_file md metadata_path >>
     incr c_saves)
    (fun e => incr c_errors).

(** [filename.endswith('.pkl')] *)
Definition endswith_pkl (filename : string) : bool :=
  let n := String.length filename in
  (4 <=? n)%nat && String.eqb (String.substring (n - 4) 4 filename) ".pkl".

(** The loop of [clear_expired]; [cleared] is the local counter, which
    survives an exception raised inside the loop. *)
Fixpoint clear_loop (names : list string) (cleared : Z) (w : world) : Z * world :=
  match names with
  | [] => (cleared, w)
  | filename :: rest =>
      if endswith_pkl filename then
        let file_path := (data, filename) in
        match is_cache_valid file_path None w with
        | (Raise _, w1) => (cleared, w1)
        | (Ok true, w1) => clear_loop rest cleared w1
        | (Ok false, w1) =>
            match os_remove file_path w1 with
            | (Raise _, w2) => (cleared, w2)
            | (Ok _, w2) =>
                let metadata_path := (metadata_dir, filename) in
                match (let! ex := os_path_exists metadata_path in
                       if ex then os_remove metadata_path else ret tt) w2 with
                | (Raise _, w3) => (cleared, w3)
                | (Ok _, w3) => clear_loop rest (cleared + 1) w3
                end
            end
        end
      else clear_loop rest cleared w
  end.

Definition clear_expired : M Z :=
  fun w =>
    match os_listdir data w with
    | (Raise _, w1) => (Ok 0, w1)
    | (Ok names, w1) =>
        let '(cleared, w2) := clear_loop names 0 w1 in (Ok cleared, w2)
    end.

(** The directory scan of [get_stats] *)
Fixpoint scan_sizes `{Builtins} (names : list string) (cache_size cache_files : Z)
  (w : world) : Z * Z :=
  match names with
  | [] => (cache_size, cache_files)
  | filename :: rest =>
      if endswith_pkl filename then
        match os_path_getsize (data, filename) w with
        | (Ok sz, _) => scan_sizes rest (cache_size + sz) (cache_files + 1) w
        | (Raise _, _) => (cache_size, cache_files)
        end
      else scan_sizes rest cache_size cache_files w
  end.

Definition get_stats `{Builtins} : M pyval :=
  fun w =>
    let s := w_stats w in
    let total_requests := hits s + misses s in
    let hit_rate :=
      if 0 <? total_requests
      then VFloat (py_round (inject_Z (hits s) / inject_Z total_requests * 100)%Q 1)
      else VInt 0 in
    let '(cache_size, cache_files) :=
      match os_listdir data w with
      | (Ok names, _) => scan_sizes names 0 0 w
      | (Raise _, _) => (0, 0)
      end in
    (Ok (VDict [("hit_rate_percent", hit_rate);
                ("total_requests", VInt total_requests);
                ("cache_files", VInt cache_files);
                ("cache_size_mb", VFloat (py_round (inject_Z cache_size / 1024 / 1024)%Q 2));
                ("hits", VInt (hits s));
                ("misses", VInt (misses s));
                ("saves", VInt (saves s));
                ("errors", VInt (errors s))]), w).

End SmartCache.

Export SmartCache.

(** ** The memoizing decorator *)

Definition pyfunc := list pyval -> pydict -> M pyval.

Definition cached_operation `{Builtins}
  (ttl_minutes : option Q) (func_name : string) (func : pyfunc) : pyfunc :=
  fun args kwargs =>
    let cache_key := generate_cache_key (VStr func_name :: args) kwargs in
    let! cached_result := get cache_key ttl_minutes in
    if is_not_None cached_result then ret cached_result
    else
      let! start_time := time_time in
      try_except
        (let! result := func args kwargs in
         set cache_key result >>
         let! execution_time := time_time in
         ret result)
        (fun e =>
           let! execution_time := time_time in
           raise e).

(** ** Calling a method: binding arguments to parameters *)

Fixpoint bind_params (params : list (string * option pyval))
  (args : list pyval) (kwargs : pydict) : option (list pyval) :=
  match params with
  | [] => match args with [] => Some [] | _ :: _ => None end
  | (name, dflt) :: ps =>
      match args with
      | a :: args' =>
          if dict_mem name kwargs then None
          else option_map (cons a) (bind_params ps args' kwargs)
      | [] =>
          match dict_get name kwargs, dflt with
          | Some v, _ => option_map (cons v) (bind_params ps [] kwargs)
          | None, Some d => option_map (cons d) (bind_params ps [] kwargs)
          | None, None => None
          end
      end
  end.

Definition known_keywords (params : list (string * option pyval)) (kwargs : pydict) : bool :=
  forallb (fun kv => existsb (fun p => String.eqb (fst kv) (fst p)) params) kwargs.

Definition call_with (params : list (string * option pyval))
  (body : list pyval -> M pyval) : pyfunc :=
  fun args kwargs =>
    if known_keywords params kwargs then
      match bind_params params args kwargs with
      | Some actuals => body actuals
      | None => raise (Exn "TypeError" "arguments")
      end
    else raise (Exn "TypeError" "unexpected keyword argument").

(** ** Operations on values that may raise *)

(** [v[k]] for a string [k] *)
Definition py_getitem (v : pyval) (k : string) : M pyval :=
  match v with
  | VDict d =>
      match dict_get k d with
      | Some x => ret x
      | None => raise (Exn "KeyError" k)
      end
  | _ => raise (Exn "TypeError" (type_name v))
  end.

(** The operand of an arithmetic operation or of a comparison with a number *)
Definition as_number (v : pyval) : M Q :=
  match v with
  | VInt z => ret (inject_Z z)
  | VFloat q => ret q
  | VBool b => ret (if b then 1 else 0)%Q
  | _ => raise (Exn "TypeError" (type_name v))
  end.

(** [{**acc, **v}]: [v] has to be a mapping *)
Definition dict_splat (acc : pydict) (v : pyval) : M pydict :=
  match v with
  | VDict d => ret (dict_update acc d)
  | _ => raise (Exn "TypeError" (type_name v))
  end.

(** [s.upper()] raises on a value that is not a string; only whether it does
    matters here *)
Definition py_upper (v : pyval) : M unit :=
  match v with
  | VStr _ => ret tt
  | _ => raise (Exn "AttributeError" (type_name v))
  end.

(** ** The remote backend

    What [....getInfo()] returns for a date range: a mapping from band
    statistics to a number or [None], and an image count. *)

Definition ee_stats := list (string * option Q).

Class EarthEngine := {
  modis_reduce_region : pyval -> pyval -> M ee_stats;
  modis_size : pyval -> pyval -> M Z;
  landsat_reduce_region : pyval -> pyval -> M ee_stats;
  landsat_size : pyval -> pyval -> M Z
}.

Fixpoint stats_lookup (k : string) (s : ee_stats) : option (option Q) :=
  match s with
  | [] => None
  | (k', v) :: s' => if String.eqb k k' then Some v else stats_lookup k s'
  end.

(** [float(stats.get(k, 0))] *)
Definition float_of_stat (k : string) (s : ee_stats) : M Q :=
  match stats_lookup k s with
  | None => ret 0%Q
  | Some (Some q) => ret q
  | Some None => raise (Exn "TypeError" "float() argument must be a string or a real number")
  end.

(** ** TashkentDustAnalyzer *)

Module TashkentDustAnalyzer.

Section Analyzer.
Context {rt : Builtins} {backend : EarthEngine}.

Definition get_modis_data_body (start_date end_date : pyval) : M pyval :=
  let! stats := modis_reduce_region start_date end_date in
  let! mean := float_of_stat "LST_Day_1km_mean" stats in
  let! std := float_of_stat "LST_Day_1km_stdDev" stats in
  let! count := modis_size start_date end_date in
  ret (VDict [("lst_day_mean", VFloat mean);
              ("lst_day_std", VFloat std);
              ("modis_count", VInt count)]).

Definition date_params : list (string * option pyval) :=
  [("self", None); ("start_date", None); ("end_date", None)].

Definition with_dates (body : pyval -> pyval -> M pyval) (actuals : list pyval) : M pyval :=
  match actuals with
  | [_; start_date; end_date] => body start_date end_date
  | _ => raise (Exn "TypeError" "arguments")
  end.

Definition get_modis_data : pyfunc :=
  cached_operation (Some 30%Q) "get_modis_data"
    (call_with date_params (with_dates get_modis_data_body)).

Definition get_landsat_data_body (start_date end_date : pyval) : M pyval :=
  let! stats := landsat_reduce_region start_date end_date in
  let! ndvi_mean := float_of_stat "NDVI_mean" stats in
  let! ndvi_std := float_of_stat "NDVI_stdDev" stats in
  let! nddi_mean := float_of_stat "NDDI_mean" stats in
  let! nddi_std := float_of_stat "NDDI_stdDev" stats in
  let! count := landsat_size start_date end_date in
  ret (VDict [("ndvi_mean", VFloat ndvi_mean);
              ("ndvi_std", VFloat ndvi_std);
              ("nddi_mean", VFloat nddi_mean);
              ("nddi_std", VFloat nddi_std);
              ("landsat_count", VInt count)]).

Definition get_landsat_data : pyfunc :=
  cached_operation (Some 60%Q) "get_landsat_data"
    (call_with date_params (with_dates get_landsat_data_body)).

(** The arithmetic of [calculate_dust_risk] *)
Record risk := {
  dust_risk_index : Q;
  risk_level : string;
  temperature_factor : Q;
  vegetation_factor : Q;
  dust_factor : Q
}.

Definition dust_risk (temperature ndvi nddi : Q) : risk :=
  let temp_factor := py_max 0 ((temperature - 25) / 20)%Q in
  let veg_factor := py_max 0 (1 - ndvi)%Q in
  let dust_factor := py_max 0 (nddi + 0.1)%Q in
  let dust_risk_index :=
    (0.4 * dust_factor + 0.3 * temp_factor + 0.3 * veg_factor)%Q in
  let dust_risk_index := py_max 0 (py_min 1 dust_risk_index) in
  let risk_level :=
    if Qltb 0.6 dust_risk_index then "high"
    else if Qltb 0.3 dust_risk_index then "moderate"
    else "low" in
  {| dust_risk_index := dust_risk_index;
     risk_level := risk_level;
     temperature_factor := temp_factor;
     vegetation_factor := veg_factor;
     dust_factor := dust_factor |}.

Definition risk_as_dict (r : risk) : pyval :=
  VDict [("dust_risk_index", VFloat (dust_risk_index r));
         ("risk_level", VStr (risk_level r));
         ("temperature_factor", VFloat (temperature_factor r));
         ("vegetation_factor", VFloat (vegetation_factor r));
         ("dust_factor", VFloat (dust_factor r))].

Definition calculate_dust_risk_body (actuals : list pyval) : M pyval :=
  match actuals with
  | [_; modis_data; landsat_data] =>
      let! temperature := py_getitem modis_data "lst_day_mean" in
      let! ndvi := py_getitem landsat_data "ndvi_mean" in
      let! nddi := py_getitem landsat_data "nddi_mean" in
      let! temperature := as_number temperature in
      let! ndvi := as_number ndvi in
      let! nddi := as_number nddi in
      ret (risk_as_dict (dust_risk temperature ndvi nddi))
  | _ => raise (Exn "TypeError" "arguments")
  end.

Definition calculate_dust_risk : pyfunc :=
  cached_operation (Some 15%Q) "calculate_dust_risk"
    (call_with [("self", None); ("modis_data", None); ("landsat_data", None)]
       calculate_dust_risk_body).

Definition _assess_conditions (conditions : pyval) : M pydict :=
  let! lst := py_getitem conditions "lst_day_mean" in
  let! lst := as_number lst in
  let temp_status :=
    if Qltb 35 lst then "High" else if Qltb 25 lst then "Moderate" else "Low" in
  let! ndvi := py_getitem conditions "ndvi_mean" in
  let! ndvi := as_number ndvi in
  let veg_status :=
    if Qltb ndvi 0.2 then "Low vegetation"
    else if Qltb ndvi 0.4 then "Moderate vegetation"
    else "Good vegetation cover" in
  let! nddi := py_getitem conditions "nddi_mean" in
  let! nddi := as_number nddi in
  let dust_status :=
    if Qltb 0.15 nddi then "Elevated dust signature detected"
    else "Normal dust levels" in
  ret [("temperature_status", VStr temp_status);
       ("vegetation_status", VStr veg_status);
       ("dust_signature_status", VStr dust_status)].

Definition tashkent_coords : pyval :=
  VList [VFloat 69.2401; VFloat 41.2995].

(** The [try] block of [get_current_conditions] *)
Definition current_conditions_chain (self : pyval) (days_back : Z) : M pyval :=
    (let! start_time := time_time in
     let! end_date := time_time in
     let start_str := strftime "%Y-%m-%d" end_date (- days_back) in
     let end_str := strftime "%Y-%m-%d" end_date 0 in
     let! modis_data := get_modis_data [self; VStr start_str; VStr end_str] [] in
     let! landsat_data := get_landsat_data [self; VStr start_str; VStr end_str] [] in
     let! risk_data := calculate_dust_risk [self; modis_data; landsat_data] [] in
     let! now := time_time in
     let! finish := time_time in
     let! modis_count := py_getitem modis_data "modis_count" in
     let! landsat_count := py_getitem landsat_data "landsat_count" in
     let results :=
       [("timestamp", VStr (isoformat now));
        ("analysis_period_days", VInt days_back);
        ("execution_time_seconds", VFloat (py_round (finish - start_time)%Q 2));
        ("data_sources",
         VStr ("MODIS_LST_" +:+ py_str modis_count +:+ ",Landsat_" +:+ py_str landsat_count))] in
     let! results := dict_splat results modis_data in
     let! results := dict_splat results landsat_data in
     let! results := dict_splat results risk_data in
     let results := dict_set "location" (VStr "Tashkent_Uzbekistan") results in
     let results := dict_set "coordinates" tashkent_coords results in
     let! cache_stats := get_stats in
     let results := dict_set "cache_stats" cache_stats results in
     let! status := _assess_conditions (VDict results) in
     let results := dict_update results status in
     let! level := py_getitem (VDict results) "risk_level" in
     py_upper level >>
     ret (VDict results)).

Definition get_current_conditions (self : pyval) (days_back : Z) : M pyval :=
  try_except
    (current_conditions_chain self days_back)
    (fun e =>
       let! cache_stats := get_stats in
       ret (VDict [("error", VStr (exn_str e)); ("cache_stats", cache_stats)])).

(** *** The forecast *)

Definition np_random_random : M Q :=
  fun w =>
    (Ok (random_draw (w_rng w)),
     {| w_clock := w_clock w; w_data := w_data w; w_meta := w_meta w;
        w_default_ttl := w_default_ttl w; w_stats := w_stats w;
        w_rng := S (w_rng w) |}).

(** [numpy.clip(x, lo, hi)] is [minimum(maximum(x, lo), hi)] *)
Definition np_clip (x lo hi : Q) : Q := py_min hi (py_max lo x).

(** [l[i]] for a list and an index that is not negative *)
Definition list_index (l : list pyval) (i : Z) : M pyval :=
  match nth_error l (Z.to_nat i) with
  | Some v => ret v
  | None => raise (Exn "IndexError" "list index out of range")
  end.

(** [k in v] *)
Definition py_contains (k : string) (v : pyval) : M bool :=
  match v with
  | VDict d => ret (dict_mem k d)
  | _ => raise (Exn "TypeError" (type_name v))
  end.

(** The number of rounds of [for i in range(days)] *)
Definition range_count (days : pyval) : M nat :=
  match days with
  | VInt n => ret (Z.to_nat n)
  | VBool b => ret (if b then 1%nat else 0%nat)
  | _ => raise (Exn "TypeError" (type_name days))
  end.

Definition month_in (m : Z) (months : list Z) : bool :=
  existsb (Z.eqb m) months.

(** One round of the loop of [generate_forecast]: the entry appended for day [i] *)
Definition forecast_day (i : Z) (base_risk base_temp : pyval)
  (forecast : list pyval) : M pyval :=
  let! now := time_time in
  let day_of_year := tm_yday now i in
  let month := month_of now i in
  let seasonal_factor := (np_sin (inject_Z day_of_year / 365 * 2 * np_pi) * 0.08)%Q in
  let weekly_pattern := (np_sin (inject_Z i / 7 * 2 * np_pi) * 0.05)%Q in
  let! r := np_random_random in
  let random_variation := ((r - 0.5) * (0.1 + inject_Z i * 0.02))%Q in
  let trend_factor :=
    if month_in month [6; 7; 8; 9] then (inject_Z i * 0.01)%Q else (inject_Z i * 0.005)%Q in
  let! base := as_number base_risk in
  let risk_score :=
    (base + seasonal_factor + weekly_pattern + random_variation + trend_factor)%Q in
  let risk_score := np_clip risk_score 0.05 0.95 in
  let risk_level :=
    if Qltb 0.65 risk_score then "high"
    else if Qltb 0.35 risk_score then "moderate"
    else "low" in
  let temp_seasonal := (np_sin (inject_Z day_of_year / 365 * 2 * np_pi) * 8)%Q in
  let! r' := np_random_random in
  let temp_daily := ((r' - 0.5) * 5)%Q in
  let temp_trend :=
    if month_in month [9; 10; 11] then (- 0.2 * inject_Z i)%Q else (0.1 * inject_Z i)%Q in
  let! base_t := as_number base_temp in
  let temperature := (base_t + temp_seasonal + temp_daily + temp_trend)%Q in
  let temperature := py_max 15 (py_min 45 temperature) in
  let confidence :=
    if i =? 0 then 0.95%Q
    else if i <=? 2 then (0.85 - inject_Z i * 0.05)%Q
    else if i <=? 4 then (0.75 - (inject_Z i - 2) * 0.08)%Q
    else (0.59 - (inject_Z i - 4) * 0.06)%Q in
  let confidence := py_max 0.35 confidence in
  let day_name :=
    if i =? 0 then "Today"
    else if i =? 1 then "Tomorrow"
    else strftime "%A" now i in
  let! tendency :=
    (if 0 <? i then
       let! prev := list_index forecast (i - 1) in
       let! prev_risk := py_getitem prev "risk_score" in
       let! prev_risk := as_number prev_risk in
       ret (if Qltb (prev_risk + 0.1)%Q risk_score then "Increasing"
            else if Qltb risk_score (prev_risk - 0.1)%Q then "Decreasing"
            else "Stable")
     else ret "Current") in
  ret (VDict [("date", VStr (strftime "%Y-%m-%d" now i));
              ("day_name", VStr day_name);
              ("day_short", VStr (strftime "%a" now i));
              ("risk_score", VFloat risk_score);
              ("risk_level", VStr risk_level);
              ("temperature", VFloat (py_round temperature 1));
              ("confidence", VFloat confidence);
              ("tendency", VStr tendency);
              ("day_index", VInt i)]).

(** [n] more rounds, starting at day [i], with [forecast] built so far *)
Fixpoint forecast_loop (n : nat) (i : Z) (base_risk base_temp : pyval)
  (forecast : list pyval) : M (list pyval) :=
  match n with
  | O => ret forecast
  | S n' =>
      let! entry := forecast_day i base_risk base_temp forecast in
      forecast_loop n' (i + 1) base_risk base_temp (forecast ++ [entry])
  end.


Definition generate_forecast_body (actuals : list pyval) : M pyval :=
  match actuals with
  | [self; days] =>
      try_except
        (let! current := get_current_conditions self 60 in
         let! failed := py_contains "error" current in
         if failed then
           let! reason := py_getitem current "error" in
           ret (VList [VDict [("error", VStr "Could not generate forecast");
                              ("reason", reason)]])
         else
           let! base_risk := py_getitem current "dust_risk_index" in
           let! base_temp := py_getitem current "lst_day_mean" in
           let! base_ndvi := py_getitem current "ndvi_mean" in
           let! n := range_count days in
           let! forecast := forecast_loop n 0 base_risk base_temp [] in
           ret (VList forecast))
        (fun e => ret (VList [VDict [("error", VStr (exn_str e))]]))
  | _ => raise (Exn "TypeError" "arguments")
  end.


End Analyzer.

End TashkentDustAnalyzer.

Export TashkentDustAnalyzer.

(** ** The route that clears the cache *)

(** [for filename in os.listdir(cache_dir): os.remove(...); cleared_files += 1] *)
Fixpoint remove_all (ct : cache_type) (names : list string) (cleared_files : Z) : M Z :=
  match names with
  | [] => ret cleared_files
  | filename :: rest =>
      os_remove (ct, filename) >>
      remove_all ct rest (cleared_files + 1)
  end.

(** [cache.stats = {'hits': 0, 'misses': 0, 'saves': 0, 'errors': 0}] *)
Definition reset_stats : M unit :=
  fun w => (Ok tt, with_stats {| hits := 0; misses := 0; saves := 0; errors := 0 |} w).

(** The answer of a route: the value given to [jsonify] and the HTTP status *)
Definition response := (pyval * Z)%type.

(** The two directories exist from the construction of the cache on
    ([ensure_cache_dir]), so the test [os.path.exists(cache_dir)] holds. *)
Definition clear_cache `{Builtins} : M response :=
  try_except
    (let! names := os_listdir data in
     let! cleared_files := remove_all data names 0 in
     let! names := os_listdir metadata_dir in
     let! cleared_files := remove_all metadata_dir names cleared_files in
     reset_stats >>
     ret (VDict [("message",
                  VStr ("Cache cleared successfully. Removed "
                        +:+ py_str (VInt cleared_files) +:+ " files."));
                 ("cleared_files", VInt cleared_files)], 200))
    (fun e => ret (VDict [("error", VStr (exn_str e))], 500)).

(** ** Vocabulary of the statements *)

(** The TTL, in seconds, that a read with [ttl_minutes] is judged by, as the
    specification words it: the reader's TTL, the store default when the
    reader gives none. *)
Definition stated_ttl (ttl_minutes : option Q) (default_ttl : Z) : Q :=
  match ttl_minutes with
  | Some m => (m * 60)%Q
  | None => inject_Z default_ttl
  end.

(** The same, with a reader's TTL of zero counted as none given. *)
Definition reader_ttl (ttl_minutes : option Q) (default_ttl : Z) : Q :=
  match ttl_minutes with
  | Some m => if Qeq_bool m 0 then inject_Z default_ttl else (m * 60)%Q
  | None => inject_Z default_ttl
  end.

(** The record that [set] leaves in the data directory, and its metadata *)
Definition stored (v : pyval) (w : world) : file :=
  {| f_content := Pickled v; f_mtime := w_clock w |}.

Definition stored_metadata `{Builtins} (cache_key : string) (v : pyval) (w : world) : file :=
  {| f_content := Json {| m_key := cache_key;
                          m_timestamp := isoformat (w_clock w);
                          m_size_bytes := getsize (Pickled v);
                          m_data_type := type_name v |};
     f_mtime := w_clock w |}.

(** An entry that the sweep is to remove: a [.pkl] file of the data directory
    whose age fails the check against the store default. *)
Definition expired_entry (w : world) (filename : string) : bool :=
  endswith_pkl filename &&
  match lookup_file (data, filename) w with
  | Some f => negb (Qltb (w_clock w - f_mtime f) (inject_Z (w_default_ttl w)))
  | None => false
  end.

(** The state without the entry [filename] and without its metadata *)
Definition drop_entry (filename : string) (w : world) : world :=
  let w1 := remove_file (data, filename) w in
  match lookup_file (metadata_dir, filename) w1 with
  | Some _ => remove_file (metadata_dir, filename) w1
  | None => w1
  end.

(** Everything but the files is the same in the two states. *)
Definition same_settings (w w' : world) : Prop :=
  w_clock w' = w_clock w /\ w_default_ttl w' = w_default_ttl w /\
  w_stats w' = w_stats w /\ w_rng w' = w_rng w /\
  d_writable (w_data w') = d_writable (w_data w) /\
  d_writable (w_meta w') = d_writable (w_meta w).

(** The order of the names of two items *)
Definition key_lt (a b : string * pyval) : Prop := String.ltb (fst a) (fst b) = true.

(** The snapshot of the cache statistics taken in state [w] *)
Definition cache_stats_of `{Builtins} (w : world) : pyval :=
  match get_stats w with
  | (Ok s, _) => s
  | (Raise _, _) => VNone
  end.

(** The error record of [get_current_conditions] *)
Definition error_envelope `{Builtins} (e : exn) (w : world) : pyval :=
  VDict [("error", VStr (exn_str e)); ("cache_stats", cache_stats_of w)].

(** What the loop of [clear_expired] can do to a file, in any state: leave
    it as it is, or remove it when it is an expired entry. *)
Definition untouched_or_swept (w w' : world) : Prop :=
  forall fn,
    (d_files (w_data w') !! fn = d_files (w_data w) !! fn \/
     (expired_entry w fn = true /\ d_files (w_data w') !! fn = None)) /\
    (d_files (w_meta w') !! fn = d_files (w_meta w) !! fn \/
     (expired_entry w fn = true /\ d_files (w_meta w') !! fn = None)).

(** The statistic [k] of an answer of the backend, 0 when it is left out *)
Definition stat_or_zero (k : string) (s : ee_stats) : Q :=
  match stats_lookup k s with
  | Some (Some q) => q
  | _ => 0%Q
  end.

(** A value that arithmetic and comparisons with numbers accept *)
Definition numeric (v : pyval) : bool :=
  match v with
  | VInt _ | VFloat _ | VBool _ => true
  | _ => false
  end.

(** *** Shape of the forecast *)












(** The [.pkl] files of the data directory, with their names *)
Definition pkl_entries (w : world) : list (string * file) :=
  List.filter (fun p => endswith_pkl (fst p)) (map_to_list (d_files (w_data w))).

(** The sum of their sizes in bytes *)
Definition pkl_bytes `{Builtins} (w : world) : Z :=
  fold_right (fun p acc => getsize (f_content (snd p)) + acc) 0 (pkl_entries w).

(** The field [field] of the statistics taken in state [w] *)
Definition reported `{Builtins} (field : string) (w : world) : option pyval :=
  match cache_stats_of w with
  | VDict d => dict_get field d
  | _ => None
  end.


(** ** A concrete runtime and concrete states, for the examples

    The theorems hold for every runtime and every backend; these are the
    instances the examples are evaluated with. *)

(** A plain rendering of values, standing for [str] *)
Fixpoint render (v : pyval) : string :=
  match v with
  | VNone => "None"
  | VBool b => if b then "True" else "False"
  | VInt z => pretty z
  | VFloat q => pretty (Qnum q) +:+ "/" +:+ pretty (Zpos (Qden q))
  | VStr s => "'" +:+ s +:+ "'"
  | VList l => "[" +:+ String.concat ", " (map render l) +:+ "]"
  | VTuple l => "(" +:+ String.concat ", " (map render l) +:+ ")"
  | VDict d =>
      "{" +:+ String.concat ", "
                (map (fun kv => "'" +:+ fst kv +:+ "': " +:+ render (snd kv)) d) +:+ "}"
  | VOpaque descr => "<" +:+ descr +:+ ">"
  end.

Definition sample_builtins : Builtins :=
  {| py_str := render;
     py_eq := fun _ _ => false;
     py_lt := fun _ _ => false;
     md5_hexdigest := fun s => s;
     getsize := fun _ => 0;
     isoformat := fun _ => "2025-06-01T12:00:00";
     py_round := fun q _ => q;
     strftime := fun fmt _ _ => fmt;
     tm_yday := fun _ i => 152 + i;
     month_of := fun _ _ => 6;
     np_sin := fun _ => 0%Q;
     np_pi := 3.14%Q;
     random_draw := fun _ => 0.5%Q |}.

(** A backend that answers *)
Definition online_engine : EarthEngine :=
  {| modis_reduce_region := fun _ _ =>
       ret [("LST_Day_1km_mean", Some 30%Q); ("LST_Day_1km_stdDev", Some 2%Q)];
     modis_size := fun _ _ => ret 12;
     landsat_reduce_region := fun _ _ =>
       ret [("NDVI_mean", Some 0.1%Q); ("NDVI_stdDev", Some 0.05%Q);
            ("NDDI_mean", Some 0.2%Q); ("NDDI_stdDev", Some 0.05%Q)];
     landsat_size := fun _ _ => ret 5 |}.

(** A backend that cannot be reached *)
Definition offline_engine : EarthEngine :=
  {| modis_reduce_region := fun _ _ => raise (Exn "EEException" "backend unreachable");
     modis_size := fun _ _ => raise (Exn "EEException" "backend unreachable");
     landsat_reduce_region := fun _ _ => raise (Exn "EEException" "backend unreachable");
     landsat_size := fun _ _ => raise (Exn "EEException" "backend unreachable") |}.

(** A backend with no image in the period: the reducers answer [None] *)
Definition no_image_engine : EarthEngine :=
  {| modis_reduce_region := fun _ _ =>
       ret [("LST_Day_1km_mean", None); ("LST_Day_1km_stdDev", None)];
     modis_size := fun _ _ => ret 0;
     landsat_reduce_region := fun _ _ =>
       ret [("NDVI_mean", None); ("NDVI_stdDev", None);
            ("NDDI_mean", None); ("NDDI_stdDev", None)];
     landsat_size := fun _ _ => ret 0 |}.

(** A backend whose answers leave statistics out *)
Definition sparse_engine : EarthEngine :=
  {| modis_reduce_region := fun _ _ => ret [("LST_Day_1km_mean", Some 30%Q)];
     modis_size := fun _ _ => ret 1;
     landsat_reduce_region := fun _ _ => ret [("NDVI_mean", Some 0.1%Q)];
     landsat_size := fun _ _ => ret 1 |}.

(** A fresh process: empty cache directories, a default TTL of 30 minutes *)
Definition empty_world : world :=
  {| w_clock := 0;
     w_data := {| d_files := ∅; d_writable := true |};
     w_meta := {| d_files := ∅; d_writable := true |};
     w_default_ttl := 1800;
     w_stats := {| hits := 0; misses := 0; saves := 0; errors := 0 |};
     w_rng := 0 |}.

(** The state ten seconds after the payload [v] was stored under [k] *)
Definition world_with (k : string) (v : pyval) : world :=
  at_time 10 (put_file (get_cache_path k data) (stored v empty_world) empty_world).

Definition the_analyzer : pyval := VOpaque "TashkentDustAnalyzer".

(** Two entries, one 2000 seconds old and one 1000 seconds old *)
Definition sweep_world : world :=
  at_time 2000
    (put_file (get_cache_path "fresh" data) (stored (VInt 2) (at_time 1000 empty_world))
       (world_with "old" (VInt 1))).

(** The data directory refuses writes *)
Definition readonly_world : world :=
  {| w_clock := 0;
     w_data := {| d_files := ∅; d_writable := false |};
     w_meta := {| d_files := ∅; d_writable := true |};
     w_default_ttl := 1800;
     w_stats := {| hits := 0; misses := 0; saves := 0; errors := 0 |};
     w_rng := 0 |}.

(** An entry 5000 seconds old in a data directory that refuses writes *)
Definition locked_world : world :=
  at_time 5000
    (put_file (get_cache_path "k" data) (stored (VInt 1) readonly_world) readonly_world).



(** * Properties *)

(** ** Comparisons *)

Lemma Qltb_lt (a b : Q) : Qltb a b = true <-> (a < b)%Q.
Proof.
  unfold Qltb. rewrite negb_true_iff.
  destruct (Qle_bool b a) eqn:E.
  - apply Qle_bool_iff in E. split; [discriminate | intros; lra].
  - split; [intros _ | reflexivity].
    destruct (Qlt_le_dec a b) as [Hl | Hl]; [exact Hl |].
    apply Qle_bool_iff in Hl. congruence.
Qed.

Lemma Qltb_ge (a b : Q) : Qltb a b = false <-> (b <= a)%Q.
Proof.
  destruct (Qltb a b) eqn:E.
  - apply Qltb_lt in E. split; [discriminate | intros; lra].
  - split; [intros _ | reflexivity].
    destruct (Qlt_le_dec a b) as [Hl | Hl]; [| exact Hl].
    apply Qltb_lt in Hl. congruence.
Qed.



(** ** The monad *)

Lemma bind_Ok {A B} (c : M A) (k : A -> M B) (w w' : world) (b : B) :
  bind c k w = (Ok b, w') ->
  exists a w1, c w = (Ok a, w1) /\ k a w1 = (Ok b, w').
Proof.
  unfold bind. destruct (c w) as [[a | e] w1]; [eauto | discriminate].
Qed.

Lemma bind_Raise {A B} (c : M A) (k : A -> M B) (w w' : world) (e : exn) :
  c w = (Raise e, w') -> bind c k w = (Raise e, w').
Proof. unfold bind. intros ->. reflexivity. Qed.

Lemma bind_step {A B} (c : M A) (k : A -> M B) (w w' : world) (a : A) :
  c w = (Ok a, w') -> bind c k w = k a w'.
Proof. unfold bind. intros ->. reflexivity. Qed.

(** ** Cache keys *)

Lemma string_ltb_lt (s t : string) : String.ltb s t = true <-> String_as_OT.lt s t.
Proof.
  unfold String.ltb. rewrite <- String_as_OT.cmp_lt. unfold String_as_OT.cmp.
  destruct (String.compare s t); split; congruence.
Qed.

Lemma string_ltb_trans (s t u : string) :
  String.ltb s t = true -> String.ltb t u = true -> String.ltb s u = true.
Proof. rewrite !string_ltb_lt. apply String_as_OT.lt_trans. Qed.

Lemma string_ltb_irrefl (s : string) : String.ltb s s = false.
Proof.
  destruct (String.ltb s s) eqn:E; [| reflexivity].
  apply string_ltb_lt, String_as_OT.lt_not_eq in E. exfalso. apply E. reflexivity.
Qed.

Lemma string_ltb_total (s t : string) :
  s <> t -> String.ltb s t = false -> String.ltb t s = true.
Proof.
  unfold String.ltb. intros Hne. rewrite (String.compare_antisym t s).
  destruct (String.compare s t) eqn:E; cbn; try congruence.
  apply String.compare_eq_iff in E. contradiction.
Qed.

Section Sorting.
Context {rt : Builtins}.

Lemma item_lt_distinct (a b : string * pyval) :
  fst a <> fst b -> item_lt a b = String.ltb (fst a) (fst b).
Proof.
  intros Hne. unfold item_lt.
  destruct (String.eqb_spec (fst a) (fst b)); [contradiction | reflexivity].
Qed.

Lemma insert_sorted_perm {A} (lt : A -> A -> bool) (x : A) (l : list A) :
  Permutation (insert_sorted lt x l) (x :: l).
Proof.
  induction l as [| y l IH]; cbn; [reflexivity |].
  destruct (lt x y); [reflexivity |].
  rewrite IH. apply perm_swap.
Qed.

Lemma sorted_from_perm {A} (lt : A -> A -> bool) (l acc : list A) :
  Permutation (fold_left (fun acc x => insert_sorted lt x acc) l acc) (l ++ acc).
Proof.
  revert acc. induction l as [| x l IH]; intros acc; cbn; [reflexivity |].
  rewrite IH, insert_sorted_perm. symmetry. apply Permutation_middle.
Qed.

Lemma sorted_perm {A} (lt : A -> A -> bool) (l : list A) :
  Permutation (sorted lt l) l.
Proof. unfold sorted. rewrite sorted_from_perm, app_nil_r. reflexivity. Qed.

Lemma insert_sorted_strict (x : string * pyval) (l : list (string * pyval)) :
  StronglySorted key_lt l ->
  ~ List.In (fst x) (map fst l) ->
  StronglySorted key_lt (insert_sorted item_lt x l).
Proof.
  induction 1 as [| y l Hs IH Hall]; intros Hnotin; cbn.
  - constructor; constructor.
  - cbn in Hnotin.
    assert (Hne : fst x <> fst y) by (intros E; apply Hnotin; left; congruence).
    rewrite item_lt_distinct by exact Hne.
    destruct (String.ltb (fst x) (fst y)) eqn:E.
    + constructor; [constructor; assumption |].
      constructor; [exact E |].
      eapply List.Forall_impl; [| exact Hall].
      intros z Hz. unfold key_lt in *. eapply string_ltb_trans; eassumption.
    + constructor.
      * apply IH. intros Hin. apply Hnotin. right. exact Hin.
      * apply List.Forall_forall. intros z Hz.
        apply (Permutation_in _ (insert_sorted_perm _ x l)) in Hz.
        destruct Hz as [<- | Hz].
        -- apply string_ltb_total; [congruence | exact E].
        -- rewrite List.Forall_forall in Hall. apply Hall, Hz.
Qed.

Lemma sorted_from_strict (l acc : list (string * pyval)) :
  StronglySorted key_lt acc ->
  List.NoDup (map fst (l ++ acc)) ->
  StronglySorted key_lt
    (fold_left (fun acc x => insert_sorted item_lt x acc) l acc).
Proof.
  revert acc. induction l as [| x l IH]; intros acc Hs Hnd; cbn; [exact Hs |].
  cbn in Hnd. apply List.NoDup_cons_iff in Hnd as [Hnotin Hnd].
  apply IH.
  - apply insert_sorted_strict; [exact Hs |].
    intros Hin. apply Hnotin. rewrite map_app. apply in_or_app. right. exact Hin.
  - eapply Permutation_NoDup; [| constructor; [exact Hnotin | exact Hnd]].
    rewrite !map_app.
    rewrite (Permutation_map fst (insert_sorted_perm item_lt x acc)).
    cbn. apply Permutation_middle.
Qed.

Lemma sorted_strict (l : list (string * pyval)) :
  List.NoDup (map fst l) -> StronglySorted key_lt (sorted item_lt l).
Proof.
  intros Hnd. apply sorted_from_strict; [constructor |].
  rewrite app_nil_r. exact Hnd.
Qed.

End Sorting.

Lemma strict_sorted_unique (l1 l2 : list (string * pyval)) :
  StronglySorted key_lt l1 -> StronglySorted key_lt l2 ->
  Permutation l1 l2 -> l1 = l2.
Proof.
  intros H1. revert l2. induction H1 as [| a l1 Hs1 IH Ha]; intros l2 H2 Hp.
  - apply Permutation_nil in Hp. congruence.
  - destruct H2 as [| b l2 Hs2 Hb].
    + apply Permutation_sym, Permutation_nil in Hp. discriminate.
    + assert (Eab : a = b).
      { assert (Ia : List.In a (b :: l2))
          by (eapply Permutation_in; [exact Hp | left; reflexivity]).
        assert (Ib : List.In b (a :: l1))
          by (eapply Permutation_in; [symmetry; exact Hp | left; reflexivity]).
        destruct Ia as [-> | Ia]; [reflexivity |].
        destruct Ib as [-> | Ib]; [reflexivity |].
        rewrite List.Forall_forall in Ha, Hb.
        specialize (Ha _ Ib). specialize (Hb _ Ia). unfold key_lt in *.
        pose proof (string_ltb_trans _ _ _ Ha Hb) as Hc.
        rewrite string_ltb_irrefl in Hc. discriminate. }
      subst b. f_equal. apply IH; [exact Hs2 |].
      eapply Permutation_cons_inv. exact Hp.
Qed.

Section Keys.
Context {rt : Builtins}.

(** C2. Two calls of [generate_cache_key] for the same operation name, the
    same positional arguments and the same keyword name/value pairs, in any
    insertion order, give the same fingerprint. *)
Theorem generate_cache_key_deterministic
  (func_name : string) (args : list pyval) (kwargs kwargs' : pydict) :
  List.NoDup (map fst kwargs) ->
  Permutation kwargs kwargs' ->
  generate_cache_key (VStr func_name :: args) kwargs
  = generate_cache_key (VStr func_name :: args) kwargs'.
Proof.
  intros Hnd Hp. unfold generate_cache_key.
  assert (Hnd' : List.NoDup (map fst kwargs')).
  { eapply Permutation_NoDup; [| exact Hnd]. apply Permutation_map, Hp. }
  rewrite (strict_sorted_unique (sorted item_lt kwargs)
             (sorted item_lt kwargs')); [reflexivity | | |].
  - apply sorted_strict, Hnd.
  - apply sorted_strict, Hnd'.
  - rewrite !sorted_perm. exact Hp.
Qed.

End Keys.

(** ** The cache store *)

Lemma effective_ttl (ttl_minutes : option Q) (default_ttl : Z) :
  ttl_or_default (ttl_seconds_of ttl_minutes) default_ttl
  = reader_ttl ttl_minutes default_ttl.
Proof.
  destruct ttl_minutes as [m |]; [| reflexivity].
  unfold ttl_seconds_of, reader_ttl, truthy.
  destruct (Qeq_bool m 0) eqn:E; cbn; [reflexivity |].
  unfold truthy.
  destruct (Qeq_bool (m * 60) 0) eqn:E'; [| reflexivity].
  apply Qeq_bool_iff in E'. apply Qeq_bool_neq in E.
  exfalso. apply E. lra.
Qed.

Lemma is_cache_valid_present (p : path) (ttl_seconds : option Q) (w : world) (f : file) :
  lookup_file p w = Some f ->
  is_cache_valid p ttl_seconds w
  = (Ok (Qltb (w_clock w - f_mtime f) (ttl_or_default ttl_seconds (w_default_ttl w))), w).
Proof.
  intros Hf.
  unfold is_cache_valid, bind, os_path_exists, os_path_getmtime, time_time,
    self_default_ttl, ret.
  rewrite Hf. cbn. rewrite Hf. reflexivity.
Qed.

Lemma is_cache_valid_absent (p : path) (ttl_seconds : option Q) (w : world) :
  lookup_file p w = None ->
  is_cache_valid p ttl_seconds w = (Ok false, w).
Proof.
  intros Hf. unfold is_cache_valid, bind, os_path_exists, ret.
  rewrite Hf. reflexivity.
Qed.

(** What a read does, case by case. *)
Lemma get_cases (cache_key : string) (ttl_minutes : option Q) (w : world) :
  get cache_key ttl_minutes w =
    match lookup_file (get_cache_path cache_key data) w with
    | None => (Ok VNone, bump c_misses w)
    | Some f =>
        if Qltb (w_clock w - f_mtime f) (reader_ttl ttl_minutes (w_default_ttl w))
        then match f_content f with
             | Pickled v => (Ok v, bump c_hits w)
             | _ => (Ok VNone, bump c_errors w)
             end
        else (Ok VNone, bump c_misses w)
    end.
Proof.
  unfold get, try_except, bind at 1.
  destruct (lookup_file (get_cache_path cache_key data) w) as [f |] eqn:Hf.
  - rewrite (is_cache_valid_present _ _ _ _ Hf), effective_ttl.
    destruct (Qltb _ _); [| reflexivity].
    unfold bind, pickle_load_file. rewrite Hf.
    destruct (f_content f); reflexivity.
  - rewrite (is_cache_valid_absent _ _ _ Hf). reflexivity.
Qed.

(** C3 (amended). A stored entry is valid exactly when
    [now - stored_at < ttl], strictly, where [ttl] is the reader's TTL when it
    gives one other than zero and the store default otherwise; so an entry
    written at [t0] is a hit at [t0 + ttl - eps] and a miss at
    [t0 + ttl + eps], and one entry can be valid for one reader and expired
    for another. *)
Theorem ttl_validity
  (w : world) (cache_key : string) (ttl_minutes : option Q) (f : file) (v : pyval) :
  lookup_file (get_cache_path cache_key data) w = Some f ->
  f_content f = Pickled v ->
  let ttl := reader_ttl ttl_minutes (w_default_ttl w) in
  let age := (w_clock w - f_mtime f)%Q in
  is_cache_valid (get_cache_path cache_key data) (ttl_seconds_of ttl_minutes) w
    = (Ok (Qltb age ttl), w) /\
  ((age < ttl)%Q -> get cache_key ttl_minutes w = (Ok v, bump c_hits w)) /\
  ((ttl <= age)%Q -> get cache_key ttl_minutes w = (Ok VNone, bump c_misses w)) /\
  (forall eps : Q, (0 < eps)%Q ->
     fst (get cache_key ttl_minutes (at_time (f_mtime f + ttl - eps) w)) = Ok v /\
     fst (get cache_key ttl_minutes (at_time (f_mtime f + ttl + eps) w)) = Ok VNone) /\
  (forall m1 m2 : Q,
     ~ (m1 == 0)%Q -> ~ (m2 == 0)%Q -> (m1 * 60 <= age)%Q -> (age < m2 * 60)%Q ->
     get cache_key (Some m1) w = (Ok VNone, bump c_misses w) /\
     get cache_key (Some m2) w = (Ok v, bump c_hits w)).
Proof.
  intros Hf Hc ttl age.
  split; [| split; [| split; [| split]]].
  - rewrite (is_cache_valid_present _ _ _ _ Hf), effective_ttl. reflexivity.
  - intros Hlt. rewrite get_cases, Hf, Hc.
    apply Qltb_lt in Hlt. fold ttl age. rewrite Hlt. reflexivity.
  - intros Hge. rewrite get_cases, Hf.
    apply Qltb_ge in Hge. fold ttl age. rewrite Hge. reflexivity.
  - intros eps Heps. rewrite !get_cases.
    change (lookup_file (get_cache_path cache_key data) (at_time _ w))
      with (lookup_file (get_cache_path cache_key data) w).
    rewrite Hf, Hc. cbn [at_time w_clock w_default_ttl]. fold ttl.
    assert (H1 : Qltb (f_mtime f + ttl - eps - f_mtime f) ttl = true)
      by (apply Qltb_lt; lra).
    assert (H2 : Qltb (f_mtime f + ttl + eps - f_mtime f) ttl = false)
      by (apply Qltb_ge; lra).
    rewrite H1, H2. split; reflexivity.
  - intros m1 m2 N1 N2 H1 H2. rewrite !get_cases, Hf, Hc. unfold reader_ttl.
    destruct (Qeq_bool m1 0) eqn:E1; [apply Qeq_bool_iff in E1; contradiction |].
    destruct (Qeq_bool m2 0) eqn:E2; [apply Qeq_bool_iff in E2; contradiction |].
    apply Qltb_ge in H1. apply Qltb_lt in H2. fold age. rewrite H1, H2.
    split; reflexivity.
Qed.

(** ** Files *)

Lemma lookup_put_file_same (p : path) (f : file) (w : world) :
  lookup_file p (put_file p f w) = Some f.
Proof.
  destruct p as [[] name]; unfold lookup_file, put_file; cbn; apply lookup_insert_eq.
Qed.

Lemma lookup_put_file_other (p q : path) (f : file) (w : world) :
  p <> q -> lookup_file q (put_file p f w) = lookup_file q w.
Proof.
  destruct p as [[] n], q as [[] n']; unfold lookup_file, put_file; cbn;
    intros Hne; try reflexivity; apply lookup_insert_ne; congruence.
Qed.

Lemma put_file_twice (p : path) (f g : file) (w : world) :
  put_file p g (put_file p f w) = put_file p g w.
Proof.
  destruct p as [[] name]; unfold put_file; cbn; rewrite insert_insert_eq; reflexivity.
Qed.

Lemma writable_put_file (ct : cache_type) (p : path) (f : file) (w : world) :
  d_writable (dir_of ct (put_file p f w)) = d_writable (dir_of ct w).
Proof. destruct p as [[] name], ct; reflexivity. Qed.

Section Store.
Context {rt : Builtins}.

(** What a write does, case by case. *)
Lemma set_cases (cache_key : string) (v : pyval) (w : world) :
  set cache_key v w =
    if d_writable (w_data w) then
      if picklable v then
        let w1 := put_file (get_cache_path cache_key data) (stored v w) w in
        if d_writable (w_meta w) then
          (Ok tt, bump c_saves
                    (put_file (get_cache_path cache_key metadata_dir)
                       (stored_metadata cache_key v w) w1))
        else (Ok tt, bump c_errors w1)
      else
        (Ok tt, bump c_errors
                  (put_file (get_cache_path cache_key data)
                     {| f_content := Corrupt; f_mtime := w_clock w |} w))
    else (Ok tt, bump c_errors w).
Proof.
  unfold set, try_except, pickle_dump_file, bind at 1 2.
  unfold open_truncate at 1. cbn [fst get_cache_path dir_of].
  destruct (d_writable (w_data w)) eqn:Hd; [| reflexivity].
  destruct (picklable v) eqn:Hp; [| reflexivity].
  unfold write_content at 1. rewrite lookup_put_file_same, put_file_twice.
  unfold bind at 1, time_time. unfold bind at 1, os_path_getsize.
  rewrite lookup_put_file_same. cbn [f_content].
  unfold json_dump_file, bind at 1 2, open_truncate.
  cbn [fst get_cache_path]. rewrite writable_put_file. cbn [dir_of].
  destruct (d_writable (w_meta w)) eqn:Hm; [| reflexivity].
  unfold write_content. rewrite lookup_put_file_same, put_file_twice.
  reflexivity.
Qed.


Lemma get_returns (cache_key : string) (ttl_minutes : option Q) (w : world) :
  exists r w', get cache_key ttl_minutes w = (Ok r, w').
Proof.
  rewrite get_cases.
  destruct (lookup_file _ w) as [f |]; [| eauto].
  destruct (Qltb _ _); [| eauto].
  destruct (f_content f); eauto.
Qed.

Lemma set_returns (cache_key : string) (v : pyval) (w : world) :
  exists w', set cache_key v w = (Ok tt, w').
Proof.
  rewrite set_cases.
  destruct (d_writable (w_data w)); [| eauto].
  destruct (picklable v); [| eauto].
  cbn zeta. destruct (d_writable (w_meta w)); eauto.
Qed.

Lemma set_stores (k : string) (v : pyval) (w : world) :
  d_writable (w_data w) = true ->
  picklable v = true ->
  lookup_file (get_cache_path k data) (snd (set k v w)) = Some (stored v w) /\
  w_default_ttl (snd (set k v w)) = w_default_ttl w.
Proof.
  intros Hd Hp. rewrite set_cases, Hd, Hp. cbn zeta.
  destruct (d_writable (w_meta w)); cbn [snd].
  - change (lookup_file (get_cache_path k data) (bump c_saves ?x))
      with (lookup_file (get_cache_path k data) x).
    rewrite lookup_put_file_other by (unfold get_cache_path; congruence).
    rewrite lookup_put_file_same. split; reflexivity.
  - change (lookup_file (get_cache_path k data) (bump c_errors ?x))
      with (lookup_file (get_cache_path k data) x).
    rewrite lookup_put_file_same. split; reflexivity.
Qed.


(** C7. [get] and [set] never raise. A read that fails (the record is there
    and fresh but cannot be loaded) returns [None] and adds one to the error
    counter; a write that fails is swallowed and adds one to the error
    counter. *)
Theorem get_set_never_raise
  (k : string) (ttl_minutes : option Q) (v : pyval) (w : world) :
  (exists r w', get k ttl_minutes w = (Ok r, w')) /\
  (forall e w1,
     is_cache_valid (get_cache_path k data) (ttl_seconds_of ttl_minutes) w = (Ok true, w) ->
     pickle_load_file (get_cache_path k data) w = (Raise e, w1) ->
     get k ttl_minutes w = (Ok VNone, bump c_errors w)) /\
  (exists w', set k v w = (Ok tt, w')) /\
  (d_writable (w_data w) = false \/ picklable v = false \/ d_writable (w_meta w) = false ->
   errors (w_stats (snd (set k v w))) = errors (w_stats w) + 1 /\
   saves (w_stats (snd (set k v w))) = saves (w_stats w)) /\
  (d_writable (w_data w) = true -> picklable v = true -> d_writable (w_meta w) = true ->
   errors (w_stats (snd (set k v w))) = errors (w_stats w) /\
   saves (w_stats (snd (set k v w))) = saves (w_stats w) + 1).
Proof.
  split; [apply get_returns |].
  split.
  { intros e w1 Hvalid Hload. rewrite get_cases.
    unfold pickle_load_file in Hload.
    destruct (lookup_file (get_cache_path k data) w) as [f |] eqn:Hf.
    - rewrite (is_cache_valid_present _ _ _ _ Hf), effective_ttl in Hvalid.
      injection Hvalid as ->.
      destruct (f_content f); [discriminate | reflexivity | reflexivity].
    - rewrite (is_cache_valid_absent _ _ _ Hf) in Hvalid. discriminate. }
  split; [apply set_returns |].
  rewrite set_cases. split.
  - intros Hfail.
    destruct (d_writable (w_data w)); [| split; reflexivity].
    destruct (picklable v); [| split; reflexivity].
    cbn zeta. destruct (d_writable (w_meta w)); [| split; reflexivity].
    destruct Hfail as [? | [? | ?]]; discriminate.
  - intros -> -> ->. split; reflexivity.
Qed.

End Store.

(** ** The expiry sweep *)

Lemma same_settings_refl (w : world) : same_settings w w.
Proof. repeat split. Qed.

Lemma same_settings_trans (w1 w2 w3 : world) :
  same_settings w1 w2 -> same_settings w2 w3 -> same_settings w1 w3.
Proof. unfold same_settings. intuition congruence. Qed.

Lemma same_settings_drop_entry (filename : string) (w : world) :
  same_settings w (drop_entry filename w).
Proof.
  unfold drop_entry. cbn zeta.
  destruct (lookup_file (metadata_dir, filename) _); repeat split.
Qed.

Lemma data_drop_entry (filename : string) (w : world) :
  d_files (w_data (drop_entry filename w)) = delete filename (d_files (w_data w)).
Proof.
  unfold drop_entry. cbn zeta.
  destruct (lookup_file (metadata_dir, filename) _); reflexivity.
Qed.

Lemma meta_drop_entry (filename : string) (w : world) :
  d_files (w_meta (drop_entry filename w)) = delete filename (d_files (w_meta w)).
Proof.
  unfold drop_entry. cbn zeta.
  destruct (lookup_file (metadata_dir, filename) _) eqn:E; [reflexivity |].
  cbn in *. symmetry. apply delete_id. exact E.
Qed.

Lemma expired_entry_ext (w w' : world) (filename : string) :
  same_settings w w' ->
  d_files (w_data w') !! filename = d_files (w_data w) !! filename ->
  expired_entry w' filename = expired_entry w filename.
Proof.
  intros (Hc & Hd & _) Hl. unfold expired_entry, lookup_file. cbn [fst snd dir_of].
  rewrite Hl, Hc, Hd. reflexivity.
Qed.

Lemma clear_loop_expired (filename : string) (rest : list string) (c : Z) (w : world) :
  d_writable (w_data w) = true -> d_writable (w_meta w) = true ->
  expired_entry w filename = true ->
  clear_loop (filename :: rest) c w = clear_loop rest (c + 1) (drop_entry filename w).
Proof.
  intros Hd Hm He. unfold expired_entry in He.
  apply andb_true_iff in He as [Hpkl He]. cbn [clear_loop]. rewrite Hpkl.
  destruct (lookup_file (data, filename) w) as [f |] eqn:Hf; [| discriminate].
  rewrite (is_cache_valid_present _ _ _ _ Hf). cbn [ttl_or_default].
  apply negb_true_iff in He. rewrite He.
  unfold os_remove at 1. rewrite Hf. cbn [fst dir_of]. rewrite Hd.
  unfold bind, os_path_exists, drop_entry. cbn zeta.
  destruct (lookup_file (metadata_dir, filename) (remove_file (data, filename) w)) eqn:E;
    [| reflexivity].
  unfold os_remove. rewrite E.
  change (d_writable (dir_of (fst (metadata_dir, filename))
                        (remove_file (data, filename) w)))
    with (d_writable (w_meta w)).
  rewrite Hm. reflexivity.
Qed.

Lemma clear_loop_kept (filename : string) (rest : list string) (c : Z) (w : world) :
  is_Some (lookup_file (data, filename) w) ->
  expired_entry w filename = false ->
  clear_loop (filename :: rest) c w = clear_loop rest c w.
Proof.
  intros [f Hf] He. unfold expired_entry in He. cbn [clear_loop].
  destruct (endswith_pkl filename); [| reflexivity]. cbn [andb] in He.
  rewrite Hf in He. apply negb_false_iff in He.
  rewrite (is_cache_valid_present _ _ _ _ Hf). cbn [ttl_or_default].
  rewrite He. reflexivity.
Qed.

Lemma clear_loop_sweeps (names : list string) :
  forall (c : Z) (w : world),
    d_writable (w_data w) = true -> d_writable (w_meta w) = true ->
    NoDup names ->
    (forall fn, fn ∈ names -> is_Some (d_files (w_data w) !! fn)) ->
    exists w',
      clear_loop names c w
        = (c + (Z.of_nat (size (d_files (w_data w)))
                - Z.of_nat (size (d_files (w_data w')))), w') /\
      same_settings w w' /\
      (forall fn,
         d_files (w_data w') !! fn
         = if bool_decide (fn ∈ names) && expired_entry w fn then None
           else d_files (w_data w) !! fn) /\
      (forall fn,
         d_files (w_meta w') !! fn
         = if bool_decide (fn ∈ names) && expired_entry w fn then None
           else d_files (w_meta w) !! fn).
Proof.
  induction names as [| h rest IH]; intros c w Hd Hm Hnd Hin.
  - exists w. cbn [clear_loop]. split; [f_equal; lia |].
    split; [apply same_settings_refl |]. split; intros fn; reflexivity.
  - apply NoDup_cons in Hnd as [Hh Hnd].
    assert (Hsome : is_Some (d_files (w_data w) !! h)) by (apply Hin; left).
    destruct (expired_entry w h) eqn:He.
    + rewrite (clear_loop_expired _ _ _ _ Hd Hm He).
      pose proof (same_settings_drop_entry h w) as Hs.
      destruct (IH (c + 1) (drop_entry h w)) as (w' & Hrun & Hs' & Hdata & Hmeta).
      * destruct Hs as (_ & _ & _ & _ & -> & _). exact Hd.
      * destruct Hs as (_ & _ & _ & _ & _ & ->). exact Hm.
      * exact Hnd.
      * intros fn Hfn. rewrite data_drop_entry, lookup_delete_ne.
        -- apply Hin. right. exact Hfn.
        -- intros ->. contradiction.
      * exists w'. split; [| split; [eapply same_settings_trans; eassumption | split]].
        -- rewrite Hrun. f_equal. rewrite data_drop_entry.
           rewrite (map_size_delete_Some _ _ Hsome).
           assert (size (d_files (w_data w)) <> 0%nat)
             by (eapply map_size_ne_0_lookup_2; exact Hsome).
           lia.
        -- intros fn. rewrite Hdata, data_drop_entry.
           destruct (decide (fn = h)) as [-> | Hne].
           ++ rewrite lookup_delete_eq, He.
              rewrite (bool_decide_eq_true_2 (h ∈ h :: rest)) by left.
              destruct (_ && _); reflexivity.
           ++ rewrite lookup_delete_ne by congruence.
              rewrite (expired_entry_ext w (drop_entry h w) fn Hs)
                by (rewrite data_drop_entry; apply lookup_delete_ne; congruence).
              replace (bool_decide (fn ∈ h :: rest)) with (bool_decide (fn ∈ rest));
                [reflexivity |].
              apply bool_decide_ext. rewrite elem_of_cons. tauto.
        -- intros fn. rewrite Hmeta, meta_drop_entry.
           destruct (decide (fn = h)) as [-> | Hne].
           ++ rewrite lookup_delete_eq, He.
              rewrite (bool_decide_eq_true_2 (h ∈ h :: rest)) by left.
              destruct (_ && _); reflexivity.
           ++ rewrite lookup_delete_ne by congruence.
              rewrite (expired_entry_ext w (drop_entry h w) fn Hs)
                by (rewrite data_drop_entry; apply lookup_delete_ne; congruence).
              replace (bool_decide (fn ∈ h :: rest)) with (bool_decide (fn ∈ rest));
                [reflexivity |].
              apply bool_decide_ext. rewrite elem_of_cons. tauto.
    + rewrite (clear_loop_kept _ _ _ _ Hsome He).
      destruct (IH c w Hd Hm Hnd) as (w' & Hrun & Hs' & Hdata & Hmeta).
      * intros fn Hfn. apply Hin. right. exact Hfn.
      * exists w'. split; [exact Hrun |]. split; [exact Hs' |].
        split; intros fn; [rewrite Hdata | rewrite Hmeta];
          (destruct (decide (fn = h)) as [-> | Hne];
           [ rewrite He, !andb_false_r; reflexivity
           | replace (bool_decide (fn ∈ h :: rest)) with (bool_decide (fn ∈ rest));
             [reflexivity | apply bool_decide_ext; rewrite elem_of_cons; tauto] ]).
Qed.

Lemma substring_whole (s : string) : String.substring 0 (String.length s) s = s.
Proof. induction s as [| b s IHs]; cbn; [reflexivity | f_equal; exact IHs]. Qed.

Lemma substring_append_suffix (k s : string) :
  String.substring (String.length k) (String.length s) (k +:+ s) = s.
Proof.
  induction k as [| a k IH].
  - change (EmptyString +:+ s) with s. apply substring_whole.
  - change (String a k +:+ s) with (String a (k +:+ s)). exact IH.
Qed.

Lemma length_append (k s : string) :
  String.length (k +:+ s) = (String.length k + String.length s)%nat.
Proof.
  induction k as [| a k IH]; [reflexivity |].
  change (String a k +:+ s) with (String a (k +:+ s)). cbn. f_equal. exact IH.
Qed.

Lemma endswith_pkl_cache_path (cache_key : string) :
  endswith_pkl (cache_key +:+ ".pkl") = true.
Proof.
  unfold endswith_pkl. rewrite length_append.
  change (String.length ".pkl") with 4%nat.
  replace (String.length cache_key + 4 - 4)%nat with (String.length cache_key) by lia.
  pose proof (substring_append_suffix cache_key ".pkl") as E.
  change (String.length ".pkl") with 4%nat in E. rewrite E.
  apply andb_true_iff. split; [apply Nat.leb_le; lia | reflexivity].
Qed.

Lemma listed_present (w : world) (fn : string) :
  fn ∈ (map_to_list (d_files (w_data w))).*1 <-> is_Some (d_files (w_data w) !! fn).
Proof.
  rewrite list_elem_of_fmap. split.
  - intros ([k f] & -> & Hin). apply elem_of_map_to_list in Hin. eauto.
  - intros [f Hf]. exists (fn, f). split; [reflexivity |].
    apply elem_of_map_to_list. exact Hf.
Qed.

Lemma expired_entry_listed (w : world) (fn : string) :
  bool_decide (fn ∈ (map_to_list (d_files (w_data w))).*1) && expired_entry w fn
  = expired_entry w fn.
Proof.
  destruct (expired_entry w fn) eqn:He; [| apply andb_false_r].
  rewrite andb_true_r. apply bool_decide_eq_true_2, listed_present.
  unfold expired_entry, lookup_file in He. cbn [fst snd dir_of] in He.
  destruct (d_files (w_data w) !! fn); [eauto |].
  rewrite andb_false_r in He. discriminate.
Qed.

(** C4. [clear_expired] removes exactly the stored entries whose age fails
    the check against the store default, whatever TTL their readers use, and
    returns the number of entries removed; an entry older than the default
    is removed although a reader with a longer TTL still finds it valid (a
    120-minute reader and a 30-minute default, for one). *)
Theorem clear_expired_sweeps (w : world) :
  d_writable (w_data w) = true ->
  d_writable (w_meta w) = true ->
  exists (n : Z) (w' : world),
    clear_expired w = (Ok n, w') /\
    (forall fn,
       d_files (w_data w') !! fn
       = if expired_entry w fn then None else d_files (w_data w) !! fn) /\
    (forall fn,
       d_files (w_meta w') !! fn
       = if expired_entry w fn then None else d_files (w_meta w) !! fn) /\
    n = Z.of_nat (size (d_files (w_data w))) - Z.of_nat (size (d_files (w_data w'))) /\
    (forall (cache_key : string) (f : file) (ttl_minutes : option Q),
       lookup_file (get_cache_path cache_key data) w = Some f ->
       (inject_Z (w_default_ttl w) <= w_clock w - f_mtime f)%Q ->
       (w_clock w - f_mtime f < reader_ttl ttl_minutes (w_default_ttl w))%Q ->
       is_cache_valid (get_cache_path cache_key data) (ttl_seconds_of ttl_minutes) w
         = (Ok true, w) /\
       lookup_file (get_cache_path cache_key data) w' = None).
Proof.
  intros Hd Hm. unfold clear_expired, os_listdir. cbn [dir_of].
  destruct (clear_loop_sweeps ((map_to_list (d_files (w_data w))).*1) 0 w Hd Hm)
    as (w' & Hrun & Hs & Hdata & Hmeta).
  { apply NoDup_fst_map_to_list. }
  { intros fn Hfn. apply listed_present, Hfn. }
  rewrite Hrun. eexists _, w'. split; [reflexivity |].
  assert (Hdata' : forall fn,
             d_files (w_data w') !! fn
             = if expired_entry w fn then None else d_files (w_data w) !! fn).
  { intros fn. rewrite Hdata, expired_entry_listed. reflexivity. }
  split; [exact Hdata' |].
  split; [intros fn; rewrite Hmeta, expired_entry_listed; reflexivity |].
  split; [lia |].
  intros cache_key f ttl_minutes Hf Hold Hfresh. split.
  - rewrite (is_cache_valid_present _ _ _ _ Hf), effective_ttl.
    apply Qltb_lt in Hfresh. rewrite Hfresh. reflexivity.
  - unfold lookup_file, get_cache_path. cbn [fst snd dir_of]. rewrite Hdata'.
    unfold expired_entry. rewrite endswith_pkl_cache_path.
    unfold get_cache_path in Hf. rewrite Hf.
    apply Qltb_ge in Hold. rewrite Hold. reflexivity.
Qed.

(** ** The memoizing decorator *)

Section Memo.
Context {rt : Builtins}.

Lemma cached_operation_hit
  (ttl_minutes : option Q) (func_name : string) (func : pyfunc)
  (args : list pyval) (kwargs : pydict) (w w1 : world) (v : pyval) :
  get (generate_cache_key (VStr func_name :: args) kwargs) ttl_minutes w = (Ok v, w1) ->
  v <> VNone ->
  cached_operation ttl_minutes func_name func args kwargs w = (Ok v, w1).
Proof.
  intros Hget Hv. unfold cached_operation, bind at 1. rewrite Hget.
  destruct v; try reflexivity. contradiction.
Qed.

Lemma cached_operation_computed
  (ttl_minutes : option Q) (func_name : string) (func : pyfunc)
  (args : list pyval) (kwargs : pydict) (w w1 w2 : world) (r : pyval) :
  get (generate_cache_key (VStr func_name :: args) kwargs) ttl_minutes w = (Ok VNone, w1) ->
  func args kwargs w1 = (Ok r, w2) ->
  cached_operation ttl_minutes func_name func args kwargs w
    = (Ok r, snd (set (generate_cache_key (VStr func_name :: args) kwargs) r w2)).
Proof.
  intros Hget Hf. unfold cached_operation, bind at 1. rewrite Hget. cbn [is_not_None].
  unfold bind at 1, time_time at 1. unfold try_except, bind at 1. rewrite Hf.
  unfold bind at 1.
  destruct (set_returns (generate_cache_key (VStr func_name :: args) kwargs) r w2)
    as [w3 Hset].
  rewrite Hset. reflexivity.
Qed.

Lemma cached_operation_raised
  (ttl_minutes : option Q) (func_name : string) (func : pyfunc)
  (args : list pyval) (kwargs : pydict) (w w1 w2 : world) (e : exn) :
  get (generate_cache_key (VStr func_name :: args) kwargs) ttl_minutes w = (Ok VNone, w1) ->
  func args kwargs w1 = (Raise e, w2) ->
  cached_operation ttl_minutes func_name func args kwargs w = (Raise e, w2).
Proof.
  intros Hget Hf. unfold cached_operation, bind at 1. rewrite Hget. cbn [is_not_None].
  unfold bind at 1, time_time at 1. unfold try_except, bind at 1. rewrite Hf.
  reflexivity.
Qed.

(** C1 (amended). For every wrapped operation and argument list: when the
    lookup under the derived key returns a payload other than [None], the
    wrapper returns it and the operation is not invoked; when it returns
    [None], the operation is invoked, on success its result is stored with
    [set] under that key and returned, and when it raises nothing is written
    and the exception reaches the caller. *)
Theorem cached_operation_behaviour
  (ttl_minutes : option Q) (func_name : string) (func : pyfunc)
  (args : list pyval) (kwargs : pydict) (w : world) :
  let key := generate_cache_key (VStr func_name :: args) kwargs in
  (forall v w1,
     get key ttl_minutes w = (Ok v, w1) -> v <> VNone ->
     forall func' : pyfunc,
       cached_operation ttl_minutes func_name func' args kwargs w = (Ok v, w1)) /\
  (forall w1 r w2,
     get key ttl_minutes w = (Ok VNone, w1) ->
     func args kwargs w1 = (Ok r, w2) ->
     cached_operation ttl_minutes func_name func args kwargs w
       = (Ok r, snd (set key r w2))) /\
  (forall w1 e w2,
     get key ttl_minutes w = (Ok VNone, w1) ->
     func args kwargs w1 = (Raise e, w2) ->
     cached_operation ttl_minutes func_name func args kwargs w = (Raise e, w2)).
Proof.
  intros key. split; [| split].
  - intros v w1 Hget Hv func'. apply cached_operation_hit; assumption.
  - intros w1 r w2 Hget Hf. eapply cached_operation_computed; eassumption.
  - intros w1 e w2 Hget Hf. eapply cached_operation_raised; eassumption.
Qed.

End Memo.

(** ** The risk index *)

Ltac risk_level_split :=
  repeat split; intros;
  try reflexivity; try discriminate; try lra; try (exfalso; lra).

Section Risk.
Context {rt : Builtins} {backend : EarthEngine}.

Lemma risk_level_cases (temperature ndvi nddi : Q) :
  let r := dust_risk temperature ndvi nddi in
  (risk_level r = "high" <-> (0.6 < dust_risk_index r)%Q) /\
  (risk_level r = "moderate" <->
     (0.3 < dust_risk_index r)%Q /\ (dust_risk_index r <= 0.6)%Q) /\
  (risk_level r = "low" <-> (dust_risk_index r <= 0.3)%Q).
Proof.
  cbn zeta. unfold dust_risk; cbn [risk_level dust_risk_index].
  set (idx := py_max 0 (py_min 1 _)).
  destruct (Qltb 0.6 idx) eqn:E1; [| destruct (Qltb 0.3 idx) eqn:E2].
  - apply Qltb_lt in E1. risk_level_split.
  - apply Qltb_ge in E1. apply Qltb_lt in E2. risk_level_split.
  - apply Qltb_ge in E1. apply Qltb_ge in E2. risk_level_split.
Qed.


End Risk.

(** ** The orchestration *)

Section Orchestrator.
Context {rt : Builtins} {backend : EarthEngine}.

Lemma get_stats_returns (w : world) :
  exists d, get_stats w = (Ok (VDict d), w).
Proof.
  unfold get_stats.
  destruct (match os_listdir data w with
            | (Ok names, _) => scan_sizes names 0 0 w
            | (Raise _, _) => (0, 0)
            end) as [cache_size cache_files].
  eauto.
Qed.

Lemma get_stats_snapshot (w : world) : get_stats w = (Ok (cache_stats_of w), w).
Proof.
  unfold cache_stats_of. destruct (get_stats_returns w) as [d ->]. reflexivity.
Qed.

Lemma chain_returns_dict (self : pyval) (days_back : Z) (w w' : world) (r : pyval) :
  current_conditions_chain self days_back w = (Ok r, w') ->
  exists results, r = VDict results.
Proof.
  unfold current_conditions_chain. intros Hrun.
  repeat (apply bind_Ok in Hrun as (? & ? & _ & Hrun)).
  unfold ret in Hrun. injection Hrun as <- _. eauto.
Qed.

Lemma get_current_conditions_failed (self : pyval) (days_back : Z) (w w1 : world) (e : exn) :
  current_conditions_chain self days_back w = (Raise e, w1) ->
  get_current_conditions self days_back w = (Ok (error_envelope e w1), w1).
Proof.
  intros Hrun. unfold get_current_conditions, try_except. rewrite Hrun.
  unfold bind. rewrite get_stats_snapshot. reflexivity.
Qed.

(** C8. No exception escapes [get_current_conditions]: it returns an
    envelope in every state, and when a step of the chain fails (the MODIS
    fetch, the Landsat fetch, the risk computation, or anything else in the
    [try] block) the envelope is the error record, which carries the string
    of the exception and a snapshot of the cache statistics. *)
Theorem get_current_conditions_fails_soft (self : pyval) (days_back : Z) (w : world) :
  let start_str := VStr (strftime "%Y-%m-%d" (w_clock w) (- days_back)) in
  let end_str := VStr (strftime "%Y-%m-%d" (w_clock w) 0) in
  (exists envelope w',
     get_current_conditions self days_back w = (Ok (VDict envelope), w')) /\
  (forall e w1,
     current_conditions_chain self days_back w = (Raise e, w1) ->
     get_current_conditions self days_back w = (Ok (error_envelope e w1), w1)) /\
  (forall e w1,
     get_modis_data [self; start_str; end_str] [] w = (Raise e, w1) ->
     get_current_conditions self days_back w = (Ok (error_envelope e w1), w1)) /\
  (forall modis_data w1 e w2,
     get_modis_data [self; start_str; end_str] [] w = (Ok modis_data, w1) ->
     get_landsat_data [self; start_str; end_str] [] w1 = (Raise e, w2) ->
     get_current_conditions self days_back w = (Ok (error_envelope e w2), w2)) /\
  (forall modis_data w1 landsat_data w2 e w3,
     get_modis_data [self; start_str; end_str] [] w = (Ok modis_data, w1) ->
     get_landsat_data [self; start_str; end_str] [] w1 = (Ok landsat_data, w2) ->
     calculate_dust_risk [self; modis_data; landsat_data] [] w2 = (Raise e, w3) ->
     get_current_conditions self days_back w = (Ok (error_envelope e w3), w3)).
Proof.
  intros start_str end_str.
  split; [| split; [| split; [| split]]].
  - destruct (current_conditions_chain self days_back w) as [[r | e] w1] eqn:Hrun.
    + destruct (chain_returns_dict _ _ _ _ _ Hrun) as [results ->].
      exists results, w1. unfold get_current_conditions, try_except.
      rewrite Hrun. reflexivity.
    + eexists _, w1. apply get_current_conditions_failed. exact Hrun.
  - intros e w1. apply get_current_conditions_failed.
  - intros e w1 Hm. apply get_current_conditions_failed.
    unfold current_conditions_chain.
    rewrite (bind_step time_time _ w w (w_clock w)) by reflexivity.
    rewrite (bind_step time_time _ w w (w_clock w)) by reflexivity.
    apply bind_Raise. exact Hm.
  - intros modis_data w1 e w2 Hm Hl. apply get_current_conditions_failed.
    unfold current_conditions_chain.
    rewrite (bind_step time_time _ w w (w_clock w)) by reflexivity.
    rewrite (bind_step time_time _ w w (w_clock w)) by reflexivity.
    rewrite (bind_step _ _ _ _ _ Hm).
    apply bind_Raise. exact Hl.
  - intros modis_data w1 landsat_data w2 e w3 Hm Hl Hr.
    apply get_current_conditions_failed.
    unfold current_conditions_chain.
    rewrite (bind_step time_time _ w w (w_clock w)) by reflexivity.
    rewrite (bind_step time_time _ w w (w_clock w)) by reflexivity.
    rewrite (bind_step _ _ _ _ _ Hm), (bind_step _ _ _ _ _ Hl).
    apply bind_Raise. exact Hr.
Qed.

End Orchestrator.

(** ** The forecast *)

Section Forecast.
Context {rt : Builtins} {backend : EarthEngine}.








End Forecast.

(** * Further properties *)

(** ** More on the cache store *)



Lemma lookup_file_bump (p : path) (c : counter) (w : world) :
  lookup_file p (bump c w) = lookup_file p w.
Proof. destruct p as [[] n]; reflexivity. Qed.

Lemma lookup_file_at_time (p : path) (t : Q) (w : world) :
  lookup_file p (at_time t w) = lookup_file p w.
Proof. destruct p as [[] n]; reflexivity. Qed.

Section StoreMore.
Context {rt : Builtins}.



(** X1. A read changes nothing but one counter: the state after [get] is the
    state before with exactly one of [hits], [misses], [errors] incremented;
    files, clock and the save counter are as they were. *)
Theorem get_only_counts (k : string) (ttl_minutes : option Q) (w : world) :
  snd (get k ttl_minutes w) = bump c_hits w \/
  snd (get k ttl_minutes w) = bump c_misses w \/
  snd (get k ttl_minutes w) = bump c_errors w.
Proof.
  rewrite get_cases.
  destruct (lookup_file _ w) as [f |]; [| auto].
  destruct (Qltb _ _); [| auto].
  destruct (f_content f); auto.
Qed.

(** X2. A key with no record, or with a record that is stale for the reader,
    is a miss: [get] returns [None] and counts a miss, also when the stale
    record is corrupt (it is not opened, so no error is counted). *)
Theorem get_absent_or_stale_is_miss
  (k : string) (ttl_minutes : option Q) (w : world) :
  (lookup_file (get_cache_path k data) w = None \/
   exists f, lookup_file (get_cache_path k data) w = Some f /\
             (reader_ttl ttl_minutes (w_default_ttl w) <= w_clock w - f_mtime f)%Q) ->
  get k ttl_minutes w = (Ok VNone, bump c_misses w).
Proof.
  intros [Habs | (f & Hf & Hstale)]; rewrite get_cases.
  - rewrite Habs. reflexivity.
  - rewrite Hf. apply Qltb_ge in Hstale. rewrite Hstale. reflexivity.
Qed.




End StoreMore.

(** ** More on the expiry sweep *)

Lemma expired_entry_present (w : world) (fn : string) :
  expired_entry w fn = true -> is_Some (d_files (w_data w) !! fn).
Proof.
  unfold expired_entry, lookup_file. cbn [fst snd dir_of].
  destruct (d_files (w_data w) !! fn); [eauto |].
  rewrite andb_false_r. discriminate.
Qed.

(** One round of the loop: the entry is kept, or the loop stops (before or
    after the removal of the data file), or the entry is dropped. *)
Lemma clear_loop_round (h : string) (rest : list string) (c : Z) (w : world) :
  (expired_entry w h = false /\
   clear_loop (h :: rest) c w = clear_loop rest c w) \/
  clear_loop (h :: rest) c w = (c, w) \/
  (expired_entry w h = true /\
   clear_loop (h :: rest) c w = (c, remove_file (data, h) w)) \/
  (expired_entry w h = true /\
   clear_loop (h :: rest) c w = clear_loop rest (c + 1) (drop_entry h w)).
Proof.
  cbn [clear_loop]. unfold expired_entry.
  destruct (endswith_pkl h) eqn:Hpkl; [| left; split; reflexivity].
  destruct (lookup_file (data, h) w) as [f |] eqn:Hf.
  - rewrite (is_cache_valid_present _ _ _ _ Hf). cbn [ttl_or_default andb].
    destruct (Qltb _ _) eqn:Hv; [left; split; reflexivity |].
    unfold os_remove, bind, os_path_exists, drop_entry. rewrite Hf.
    cbn [fst dir_of negb].
    destruct (d_writable (w_data w)); [| right; left; reflexivity].
    cbn zeta.
    destruct (lookup_file (metadata_dir, h) (remove_file (data, h) w)) eqn:Hm.
    + rewrite ?Hm. destruct (d_writable (w_meta (remove_file (data, h) w))).
      * right; right; right. split; reflexivity.
      * right; right; left. split; reflexivity.
    + rewrite ?Hm. right; right; right. split; reflexivity.
  - rewrite (is_cache_valid_absent _ _ _ Hf).
    unfold os_remove. rewrite Hf. right; left. reflexivity.
Qed.

Lemma same_settings_remove_file (p : path) (w : world) :
  same_settings w (remove_file p w).
Proof. destruct p as [[] n]; repeat split. Qed.

Lemma size_delete_present (m : gmap string file) (fn : string) :
  is_Some (m !! fn) ->
  Z.of_nat (size (delete fn m)) = Z.of_nat (size m) - 1.
Proof.
  intros Hs. rewrite (map_size_delete_Some _ _ Hs).
  assert (size m <> 0%nat) by (eapply map_size_ne_0_lookup_2; exact Hs). lia.
Qed.

Lemma untouched_or_swept_after (h : string) (w w1 w' : world) :
  expired_entry w h = true ->
  same_settings w w1 ->
  d_files (w_data w1) = delete h (d_files (w_data w)) ->
  (d_files (w_meta w1) = d_files (w_meta w) \/
   d_files (w_meta w1) = delete h (d_files (w_meta w))) ->
  untouched_or_swept w1 w' ->
  untouched_or_swept w w'.
Proof.
  intros He Hs Hd Hm Hrest fn. destruct (Hrest fn) as [Hdata Hmeta].
  destruct (decide (fn = h)) as [-> | Hne].
  - split.
    + right. split; [exact He |].
      destruct Hdata as [-> | [_ ->]]; [| reflexivity].
      rewrite Hd. apply lookup_delete_eq.
    + destruct Hmeta as [E | [_ E]]; [| right; split; assumption].
      rewrite E. destruct Hm as [-> | ->]; [left; reflexivity |].
      right. split; [exact He | apply lookup_delete_eq].
  - assert (Hsame : expired_entry w1 fn = expired_entry w fn).
    { apply expired_entry_ext; [exact Hs |].
      rewrite Hd. apply lookup_delete_ne. congruence. }
    rewrite Hsame in Hdata, Hmeta.
    rewrite Hd, lookup_delete_ne in Hdata by congruence.
    split; [exact Hdata |].
    destruct Hm as [E | E]; rewrite E in Hmeta; [exact Hmeta |].
    rewrite lookup_delete_ne in Hmeta by congruence. exact Hmeta.
Qed.

Lemma clear_loop_safe (names : list string) :
  forall (c : Z) (w : world),
    exists c' w',
      clear_loop names c w = (c', w') /\
      same_settings w w' /\
      c <= c' /\
      c' - c <= Z.of_nat (size (d_files (w_data w)))
                - Z.of_nat (size (d_files (w_data w'))) /\
      untouched_or_swept w w'.
Proof.
  induction names as [| h rest IH]; intros c w.
  - exists c, w. cbn. split; [reflexivity |]. split; [apply same_settings_refl |].
    split; [lia |]. split; [lia |]. intros fn. split; left; reflexivity.
  - destruct (clear_loop_round h rest c w)
      as [[He Hrun] | [Hrun | [[He Hrun] | [He Hrun]]]]; rewrite Hrun.
    + apply IH.
    + exists c, w. split; [reflexivity |]. split; [apply same_settings_refl |].
      split; [lia |]. split; [lia |]. intros fn. split; left; reflexivity.
    + exists c, (remove_file (data, h) w). split; [reflexivity |].
      split; [apply same_settings_remove_file |]. split; [lia |].
      pose proof (size_delete_present _ _ (expired_entry_present _ _ He)) as Hsz.
      split; [cbn; lia |].
      apply (untouched_or_swept_after h w (remove_file (data, h) w)); auto.
      * apply same_settings_remove_file.
      * intros fn. split; left; reflexivity.
    + destruct (IH (c + 1) (drop_entry h w)) as (c' & w' & Hr & Hs & Hc & Hsz & Hu).
      exists c', w'. split; [exact Hr |].
      split; [eapply same_settings_trans; [apply same_settings_drop_entry | exact Hs] |].
      split; [lia |].
      pose proof (size_delete_present _ _ (expired_entry_present _ _ He)) as Hd.
      rewrite data_drop_entry in Hsz.
      split; [lia |].
      apply (untouched_or_swept_after h w (drop_entry h w)); auto.
      * apply same_settings_drop_entry.
      * apply data_drop_entry.
      * right. apply meta_drop_entry.
Qed.

(** X6. The sweep is safe in every state, faults included: [clear_expired]
    returns normally, leaves the counters, the clock and the default TTL as
    they were, never touches a file that is not an expired entry (nor its
    metadata), and never reports more than the number of data files that
    disappeared. *)
Theorem clear_expired_safe (w : world) :
  exists (n : Z) (w' : world),
    clear_expired w = (Ok n, w') /\
    same_settings w w' /\
    0 <= n <= Z.of_nat (size (d_files (w_data w)))
              - Z.of_nat (size (d_files (w_data w'))) /\
    (forall fn,
       expired_entry w fn = false ->
       d_files (w_data w') !! fn = d_files (w_data w) !! fn /\
       d_files (w_meta w') !! fn = d_files (w_meta w) !! fn).
Proof.
  unfold clear_expired, os_listdir. cbn [dir_of].
  destruct (clear_loop_safe ((map_to_list (d_files (w_data w))).*1) 0 w)
    as (n & w' & Hrun & Hs & Hn & Hsz & Hu).
  rewrite Hrun. exists n, w'. split; [reflexivity |]. split; [exact Hs |].
  split; [lia |].
  intros fn He. destruct (Hu fn) as [[Hd | [Hx _]] [Hm | [Hy _]]]; try congruence.
  split; assumption.
Qed.

Lemma clear_loop_readonly (names : list string) :
  forall (c : Z) (w : world),
    d_writable (w_data w) = false ->
    clear_loop names c w = (c, w).
Proof.
  induction names as [| h rest IH]; intros c w Hd; [reflexivity |].
  cbn [clear_loop].
  destruct (endswith_pkl h); [| apply IH, Hd].
  destruct (lookup_file (data, h) w) as [f |] eqn:Hf.
  - rewrite (is_cache_valid_present _ _ _ _ Hf).
    destruct (Qltb _ _); [apply IH, Hd |].
    unfold os_remove. rewrite Hf. cbn [fst dir_of]. rewrite Hd. reflexivity.
  - rewrite (is_cache_valid_absent _ _ _ Hf).
    unfold os_remove. rewrite Hf. reflexivity.
Qed.

(** X7. With a data directory that refuses removals the sweep reports 0 and
    changes nothing: the failure of the first removal is swallowed. *)
Theorem clear_expired_readonly (w : world) :
  d_writable (w_data w) = false ->
  clear_expired w = (Ok 0, w).
Proof.
  intros Hd. unfold clear_expired, os_listdir.
  rewrite (clear_loop_readonly _ 0 w Hd). reflexivity.
Qed.

Lemma clear_loop_nothing (names : list string) :
  forall (c : Z) (w : world),
    (forall fn, fn ∈ names ->
       is_Some (d_files (w_data w) !! fn) /\ expired_entry w fn = false) ->
    clear_loop names c w = (c, w).
Proof.
  induction names as [| h rest IH]; intros c w Hall; [reflexivity |].
  destruct (Hall h) as [Hs He]; [left |].
  rewrite (clear_loop_kept _ _ _ _ Hs He).
  apply IH. intros fn Hfn. apply Hall. right. exact Hfn.
Qed.

(** X8. The sweep is idempotent: in a store that accepts removals, after one
    sweep no expired entry is left, and a second sweep at the same time
    reports 0 and changes nothing. *)
Theorem clear_expired_idempotent (w : world) :
  d_writable (w_data w) = true ->
  d_writable (w_meta w) = true ->
  exists (n : Z) (w' : world),
    clear_expired w = (Ok n, w') /\
    (forall fn, expired_entry w' fn = false) /\
    clear_expired w' = (Ok 0, w').
Proof.
  intros Hd Hm. unfold clear_expired at 1, os_listdir. cbn [dir_of].
  destruct (clear_loop_sweeps ((map_to_list (d_files (w_data w))).*1) 0 w Hd Hm)
    as (w' & Hrun & Hs & Hdata & _).
  { apply NoDup_fst_map_to_list. }
  { intros fn Hfn. apply listed_present, Hfn. }
  rewrite Hrun. eexists _, w'. split; [reflexivity |].
  assert (Hnone : forall fn, expired_entry w' fn = false).
  { intros fn. destruct (expired_entry w' fn) eqn:He; [| reflexivity].
    pose proof (expired_entry_present _ _ He) as [f Hf].
    rewrite Hdata, expired_entry_listed in Hf.
    destruct (expired_entry w fn) eqn:He0; [discriminate |].
    rewrite (expired_entry_ext w w' fn Hs) in He; [congruence |].
    rewrite Hdata, expired_entry_listed, He0. reflexivity. }
  split; [exact Hnone |].
  unfold clear_expired, os_listdir. cbn [dir_of].
  rewrite clear_loop_nothing; [reflexivity |].
  intros fn Hfn. split; [apply listed_present, Hfn | apply Hnone].
Qed.

(** ** More on the decorator *)

Section MemoMore.
Context {rt : Builtins}.

(** X9. Memoization: when a wrapped operation was computed (the lookup
    missed, the operation returned a result other than [None] that can be
    pickled, the data directory accepted the write), a later call with the
    same arguments within the TTL returns that result without invoking the
    operation; only the hit counter changes. *)
Theorem cached_operation_memoizes
  (ttl_minutes : option Q) (func_name : string) (func : pyfunc)
  (args : list pyval) (kwargs : pydict) (w w1 w2 : world) (r : pyval) (t : Q) :
  get (generate_cache_key (VStr func_name :: args) kwargs) ttl_minutes w = (Ok VNone, w1) ->
  func args kwargs w1 = (Ok r, w2) ->
  r <> VNone ->
  picklable r = true ->
  d_writable (w_data w2) = true ->
  (t - w_clock w2 < reader_ttl ttl_minutes (w_default_ttl w2))%Q ->
  fst (cached_operation ttl_minutes func_name func args kwargs w) = Ok r /\
  forall func' : pyfunc,
    cached_operation ttl_minutes func_name func' args kwargs
      (at_time t (snd (cached_operation ttl_minutes func_name func args kwargs w)))
    = (Ok r,
       bump c_hits
         (at_time t (snd (cached_operation ttl_minutes func_name func args kwargs w)))).
Proof.
  intros Hmiss Hf Hr Hp Hd Ht.
  rewrite (cached_operation_computed _ _ _ _ _ _ _ _ _ Hmiss Hf). cbn [fst snd].
  split; [reflexivity |]. intros func'.
  apply cached_operation_hit; [| exact Hr].
  destruct (set_stores (generate_cache_key (VStr func_name :: args) kwargs) r w2 Hd Hp)
    as [Hst Hdef].
  rewrite get_cases, lookup_file_at_time, Hst.
  cbn [stored f_mtime f_content at_time w_clock w_default_ttl]. rewrite Hdef.
  apply Qltb_lt in Ht. rewrite Ht. reflexivity.
Qed.

(** X10. A result that cannot be stored is still returned: when the data
    directory refuses the write, the wrapper returns the operation's result,
    counts one error and stores nothing. *)
Theorem cached_operation_unstorable
  (ttl_minutes : option Q) (func_name : string) (func : pyfunc)
  (args : list pyval) (kwargs : pydict) (w w1 w2 : world) (r : pyval) :
  get (generate_cache_key (VStr func_name :: args) kwargs) ttl_minutes w = (Ok VNone, w1) ->
  func args kwargs w1 = (Ok r, w2) ->
  d_writable (w_data w2) = false ->
  cached_operation ttl_minutes func_name func args kwargs w = (Ok r, bump c_errors w2).
Proof.
  intros Hmiss Hf Hd.
  rewrite (cached_operation_computed _ _ _ _ _ _ _ _ _ Hmiss Hf).
  rewrite set_cases, Hd. reflexivity.
Qed.

End MemoMore.

(** ** The fetchers *)

Section Fetchers.
Context {rt : Builtins} {backend : EarthEngine}.

Lemma float_of_stat_number (k : string) (s : ee_stats) (w : world) :
  stats_lookup k s <> Some None ->
  float_of_stat k s w = (Ok (stat_or_zero k s), w).
Proof.
  unfold float_of_stat, stat_or_zero.
  destruct (stats_lookup k s) as [[q |] |]; [reflexivity | congruence | reflexivity].
Qed.

(** X11. A statistic that the backend leaves out is taken as 0.0, silently:
    when no statistic asked for is [None], the MODIS and the Landsat fetch
    return their summary with each missing mean or deviation at 0 and each
    present one as given (with an empty answer, all at 0). *)
Theorem fetch_defaults_missing_statistics
  (start_date end_date : pyval) (w w1 w2 : world) (s : ee_stats) (n : Z) :
  (modis_reduce_region start_date end_date w = (Ok s, w1) ->
   modis_size start_date end_date w1 = (Ok n, w2) ->
   stats_lookup "LST_Day_1km_mean" s <> Some None ->
   stats_lookup "LST_Day_1km_stdDev" s <> Some None ->
   get_modis_data_body start_date end_date w
   = (Ok (VDict [("lst_day_mean", VFloat (stat_or_zero "LST_Day_1km_mean" s));
                 ("lst_day_std", VFloat (stat_or_zero "LST_Day_1km_stdDev" s));
                 ("modis_count", VInt n)]), w2)) /\
  (landsat_reduce_region start_date end_date w = (Ok s, w1) ->
   landsat_size start_date end_date w1 = (Ok n, w2) ->
   stats_lookup "NDVI_mean" s <> Some None ->
   stats_lookup "NDVI_stdDev" s <> Some None ->
   stats_lookup "NDDI_mean" s <> Some None ->
   stats_lookup "NDDI_stdDev" s <> Some None ->
   get_landsat_data_body start_date end_date w
   = (Ok (VDict [("ndvi_mean", VFloat (stat_or_zero "NDVI_mean" s));
                 ("ndvi_std", VFloat (stat_or_zero "NDVI_stdDev" s));
                 ("nddi_mean", VFloat (stat_or_zero "NDDI_mean" s));
                 ("nddi_std", VFloat (stat_or_zero "NDDI_stdDev" s));
                 ("landsat_count", VInt n)]), w2)).
Proof.
  split.
  - intros Hs Hn H1 H2. unfold get_modis_data_body.
    rewrite (bind_step _ _ _ _ _ Hs).
    rewrite (bind_step _ _ _ _ _ (float_of_stat_number _ _ w1 H1)).
    rewrite (bind_step _ _ _ _ _ (float_of_stat_number _ _ w1 H2)).
    rewrite (bind_step _ _ _ _ _ Hn). reflexivity.
  - intros Hs Hn H1 H2 H3 H4. unfold get_landsat_data_body.
    rewrite (bind_step _ _ _ _ _ Hs).
    rewrite (bind_step _ _ _ _ _ (float_of_stat_number _ _ w1 H1)).
    rewrite (bind_step _ _ _ _ _ (float_of_stat_number _ _ w1 H2)).
    rewrite (bind_step _ _ _ _ _ (float_of_stat_number _ _ w1 H3)).
    rewrite (bind_step _ _ _ _ _ (float_of_stat_number _ _ w1 H4)).
    rewrite (bind_step _ _ _ _ _ Hn). reflexivity.
Qed.

(** X12. A statistic that the backend reports as [None] (no image in the
    period) is not defaulted: [float(None)] raises, the fetch stores
    nothing, and [get_current_conditions] answers with the error record. *)
Theorem null_statistic_fails_the_analysis
  (self : pyval) (days_back : Z) (w w1 : world) (s : ee_stats) :
  let start_str := VStr (strftime "%Y-%m-%d" (w_clock w) (- days_back)) in
  let end_str := VStr (strftime "%Y-%m-%d" (w_clock w) 0) in
  lookup_file
    (get_cache_path (generate_cache_key [VStr "get_modis_data"; self; start_str; end_str] [])
       data) w = None ->
  modis_reduce_region start_str end_str (bump c_misses w) = (Ok s, w1) ->
  stats_lookup "LST_Day_1km_mean" s = Some None ->
  exists e,
    exn_class e = "TypeError" /\
    get_modis_data [self; start_str; end_str] [] w = (Raise e, w1) /\
    get_current_conditions self days_back w = (Ok (error_envelope e w1), w1).
Proof.
  intros start_str end_str Habs Hs Hnull.
  exists (Exn "TypeError" "float() argument must be a string or a real number").
  split; [reflexivity |].
  assert (Hfetch : get_modis_data [self; start_str; end_str] [] w
                   = (Raise (Exn "TypeError"
                               "float() argument must be a string or a real number"), w1)).
  { unfold get_modis_data.
    eapply cached_operation_raised.
    - rewrite get_cases, Habs. reflexivity.
    - change (call_with date_params (with_dates get_modis_data_body)
                [self; start_str; end_str] [] (bump c_misses w))
        with (get_modis_data_body start_str end_str (bump c_misses w)).
      unfold get_modis_data_body. rewrite (bind_step _ _ _ _ _ Hs).
      apply bind_Raise. unfold float_of_stat. rewrite Hnull. reflexivity. }
  split; [exact Hfetch |].
  apply get_current_conditions_failed. unfold current_conditions_chain.
  rewrite (bind_step time_time _ w w (w_clock w)) by reflexivity.
  rewrite (bind_step time_time _ w w (w_clock w)) by reflexivity.
  apply bind_Raise. exact Hfetch.
Qed.

End Fetchers.

(** ** More on the risk index *)

Lemma py_max_lower (a b : Q) : (a <= py_max a b)%Q /\ (b <= py_max a b)%Q.
Proof.
  unfold py_max. destruct (Qltb a b) eqn:E.
  - apply Qltb_lt in E. split; lra.
  - apply Qltb_ge in E. split; lra.
Qed.

Lemma py_max_least (a b c : Q) : (a <= c)%Q -> (b <= c)%Q -> (py_max a b <= c)%Q.
Proof. unfold py_max. destruct (Qltb a b); auto. Qed.

Lemma py_min_upper (a b : Q) : (py_min a b <= a)%Q /\ (py_min a b <= b)%Q.
Proof.
  unfold py_min. destruct (Qltb b a) eqn:E.
  - apply Qltb_lt in E. split; lra.
  - apply Qltb_ge in E. split; lra.
Qed.

Lemma py_min_greatest (a b c : Q) : (c <= a)%Q -> (c <= b)%Q -> (c <= py_min a b)%Q.
Proof. unfold py_min. destruct (Qltb b a); auto. Qed.

Lemma py_max_mono (a b b' : Q) : (b <= b')%Q -> (py_max a b <= py_max a b')%Q.
Proof.
  intros Hb. apply py_max_least.
  - apply py_max_lower.
  - destruct (py_max_lower a b') as [_ H]. lra.
Qed.

Lemma py_min_mono (a b b' : Q) : (b <= b')%Q -> (py_min a b <= py_min a b')%Q.
Proof.
  intros Hb. apply py_min_greatest.
  - apply py_min_upper.
  - destruct (py_min_upper a b) as [_ H]. lra.
Qed.

Section RiskMore.
Context {rt : Builtins} {backend : EarthEngine}.

(** X13. Whatever the inputs, the risk index lies in [0, 1] and the three
    factors are not negative. *)
Theorem dust_risk_bounds (temperature ndvi nddi : Q) :
  let r := dust_risk temperature ndvi nddi in
  (0 <= dust_risk_index r)%Q /\ (dust_risk_index r <= 1)%Q /\
  (0 <= temperature_factor r)%Q /\ (0 <= vegetation_factor r)%Q /\
  (0 <= dust_factor r)%Q.
Proof.
  cbn zeta. unfold dust_risk.
  cbn [dust_risk_index temperature_factor vegetation_factor dust_factor].
  split; [apply py_max_lower |].
  split; [apply py_max_least; [lra | apply py_min_upper] |].
  repeat split; apply py_max_lower.
Qed.

(** X14. The risk index is monotone: it does not decrease when the
    temperature or the dust index rises, nor when the vegetation index
    falls. *)
Theorem dust_risk_monotone (temperature temperature' ndvi ndvi' nddi nddi' : Q) :
  (temperature <= temperature')%Q -> (ndvi' <= ndvi)%Q -> (nddi <= nddi')%Q ->
  (dust_risk_index (dust_risk temperature ndvi nddi)
   <= dust_risk_index (dust_risk temperature' ndvi' nddi'))%Q.
Proof.
  intros Ht Hn Hd. unfold dust_risk. cbn [dust_risk_index].
  apply py_max_mono, py_min_mono.
  assert (H1 : (py_max 0 ((temperature - 25) / 20)
                <= py_max 0 ((temperature' - 25) / 20))%Q).
  { apply py_max_mono. unfold Qdiv. apply Qmult_le_compat_r; [lra | discriminate]. }
  assert (H2 : (py_max 0 (1 - ndvi) <= py_max 0 (1 - ndvi'))%Q)
    by (apply py_max_mono; lra).
  assert (H3 : (py_max 0 (nddi + 0.1) <= py_max 0 (nddi' + 0.1))%Q)
    by (apply py_max_mono; lra).
  lra.
Qed.

(** X15. The status labels of [_assess_conditions] bound the risk level
    computed from the same three numbers: with all three labels benign the
    level is "low"; with all three adverse it is not "low"; and a "high"
    level comes with at least one adverse label. *)
Theorem statuses_bound_the_level
  (conditions : pydict) (lst ndvi nddi : Q) (w : world) :
  dict_get "lst_day_mean" conditions = Some (VFloat lst) ->
  dict_get "ndvi_mean" conditions = Some (VFloat ndvi) ->
  dict_get "nddi_mean" conditions = Some (VFloat nddi) ->
  exists temp_status veg_status dust_status : string,
    _assess_conditions (VDict conditions) w
    = (Ok [("temperature_status", VStr temp_status);
           ("vegetation_status", VStr veg_status);
           ("dust_signature_status", VStr dust_status)], w) /\
    (temp_status = "Low" -> veg_status = "Good vegetation cover" ->
     dust_status = "Normal dust levels" ->
     risk_level (dust_risk lst ndvi nddi) = "low") /\
    (temp_status = "High" -> veg_status = "Low vegetation" ->
     dust_status = "Elevated dust signature detected" ->
     risk_level (dust_risk lst ndvi nddi) <> "low") /\
    (risk_level (dust_risk lst ndvi nddi) = "high" ->
     temp_status = "High" \/ veg_status = "Low vegetation" \/
     dust_status = "Elevated dust signature detected").
Proof.
  intros Hl Hn Hd. eexists _, _, _. split.
  { unfold _assess_conditions, py_getitem, bind, ret, as_number.
    rewrite Hl, Hn, Hd. reflexivity. }
  destruct (risk_level_cases lst ndvi nddi) as (Lh & Lm & Ll).
  cbn zeta in Lh, Lm, Ll.
  set (r := dust_risk lst ndvi nddi) in *.
  assert (Hidx : dust_risk_index r
                 = py_max 0 (py_min 1 (0.4 * py_max 0 (nddi + 0.1)
                                        + 0.3 * py_max 0 ((lst - 25) / 20)
                                        + 0.3 * py_max 0 (1 - ndvi)))%Q) by reflexivity.
  set (tf := py_max 0 ((lst - 25) / 20)) in *.
  set (vf := py_max 0 (1 - ndvi)) in *.
  set (df := py_max 0 (nddi + 0.1)) in *.
  assert (Htf : (lst <= 35 -> tf <= 0.5)%Q).
  { intros H. apply py_max_least; [lra |].
    apply Qle_shift_div_r; [reflexivity | lra]. }
  assert (Htf0 : (lst <= 25 -> tf <= 0)%Q).
  { intros H. apply py_max_least; [lra |].
    apply Qle_shift_div_r; [reflexivity | lra]. }
  assert (Htf1 : (35 < lst -> 0.5 < tf)%Q).
  { intros H. destruct (py_max_lower 0 ((lst - 25) / 20)) as [_ Hb]. fold tf in Hb.
    assert ((0.5 < (lst - 25) / 20)%Q) by (apply Qlt_shift_div_l; [reflexivity | lra]).
    lra. }
  assert (Hvf : forall c : Q, (c <= ndvi -> 0 <= 1 - c -> vf <= 1 - c)%Q).
  { intros c H H'. apply py_max_least; lra. }
  assert (Hvf1 : (ndvi < 0.2 -> 0.8 < vf)%Q).
  { intros H. destruct (py_max_lower 0 (1 - ndvi)) as [_ Hb]. fold vf in Hb. lra. }
  assert (Hdf : (nddi <= 0.15 -> df <= 0.25)%Q).
  { intros H. apply py_max_least; lra. }
  assert (Hdf1 : (0.15 < nddi -> 0.25 < df)%Q).
  { intros H. destruct (py_max_lower 0 (nddi + 0.1)) as [_ Hb]. fold df in Hb. lra. }
  assert (Hup : forall c : Q,
             (0 <= c -> 0.4 * df + 0.3 * tf + 0.3 * vf <= c -> dust_risk_index r <= c)%Q).
  { intros c Hc H. rewrite Hidx. apply py_max_least; [exact Hc |].
    destruct (py_min_upper 1 (0.4 * df + 0.3 * tf + 0.3 * vf)) as [_ Hb]. lra. }
  assert (Hlow : forall c : Q,
             (c < 1 -> c < 0.4 * df + 0.3 * tf + 0.3 * vf -> c < dust_risk_index r)%Q).
  { intros c Hc H. rewrite Hidx.
    destruct (py_max_lower 0 (py_min 1 (0.4 * df + 0.3 * tf + 0.3 * vf))) as [_ Hb].
    assert (Hm : (c < py_min 1 (0.4 * df + 0.3 * tf + 0.3 * vf))%Q).
    { unfold py_min. destruct (Qltb _ 1); lra. }
    lra. }
  destruct (Qltb 35 lst) eqn:E35; [| destruct (Qltb 25 lst) eqn:E25];
    (destruct (Qltb ndvi 0.2) eqn:E02; [| destruct (Qltb ndvi 0.4) eqn:E04]);
    destruct (Qltb 0.15 nddi) eqn:E15;
    repeat match goal with
           | H : Qltb _ _ = true |- _ => apply Qltb_lt in H
           | H : Qltb _ _ = false |- _ => apply Qltb_ge in H
           end;
    (split; [| split]); intros;
    try discriminate; try (right; left; reflexivity); try (left; reflexivity);
    try (right; right; reflexivity);
    try (apply Ll, (Hup 0.3%Q); [lra |];
         specialize (Htf0 ltac:(assumption)); specialize (Hdf ltac:(assumption));
         specialize (Hvf 0.4%Q ltac:(assumption) ltac:(lra)); lra);
    try (intros Hc; apply Ll in Hc;
         specialize (Htf1 ltac:(assumption)); specialize (Hvf1 ltac:(assumption));
         specialize (Hdf1 ltac:(assumption));
         assert ((0.3 < dust_risk_index r)%Q) by (apply Hlow; lra); lra);
    try (exfalso;
         match goal with H : risk_level r = "high" |- _ => apply Lh in H end;
         specialize (Htf ltac:(lra)); specialize (Hdf ltac:(assumption));
         specialize (Hvf 0.2%Q ltac:(assumption) ltac:(lra));
         assert ((dust_risk_index r <= 0.49)%Q) by (apply Hup; lra); lra).
Qed.

End RiskMore.

(** ** Dictionaries *)

Lemma dict_get_set_same (k : string) (v : pyval) (d : pydict) :
  dict_get k (dict_set k v d) = Some v.
Proof.
  induction d as [| [k' v'] d IH]; cbn.
  - rewrite String.eqb_refl. reflexivity.
  - destruct (String.eqb k k') eqn:E; cbn.
    + rewrite String.eqb_refl. reflexivity.
    + rewrite E. exact IH.
Qed.

Lemma dict_get_set_other (k k' : string) (v : pyval) (d : pydict) :
  k <> k' -> dict_get k (dict_set k' v d) = dict_get k d.
Proof.
  intros Hne. induction d as [| [k0 v0] d IH]; cbn.
  - apply String.eqb_neq in Hne. rewrite Hne. reflexivity.
  - destruct (String.eqb k' k0) eqn:E; cbn.
    + apply String.eqb_eq in E. subst k0.
      apply String.eqb_neq in Hne. rewrite Hne. reflexivity.
    + destruct (String.eqb k k0); [reflexivity | exact IH].
Qed.

(** ** More on the orchestration *)

Lemma py_getitem_Ok (v : pyval) (k : string) (w w' : world) (x : pyval) :
  py_getitem v k w = (Ok x, w') ->
  w' = w /\ exists d, v = VDict d /\ dict_get k d = Some x.
Proof.
  unfold py_getitem. destruct v; try discriminate.
  destruct (dict_get k d) eqn:E; [| discriminate].
  unfold ret. intros [= -> ->]. eauto.
Qed.

Lemma as_number_Ok (v : pyval) (w w' : world) (q : Q) :
  as_number v w = (Ok q, w') -> w' = w /\ numeric v = true.
Proof.
  unfold as_number, ret. destruct v; try discriminate; intros [= _ ->]; auto.
Qed.

Lemma dict_splat_Ok (acc : pydict) (v : pyval) (w w' : world) (r : pydict) :
  dict_splat acc v w = (Ok r, w') -> w' = w.
Proof.
  unfold dict_splat, ret. destruct v; try discriminate. intros [= _ ->]. reflexivity.
Qed.

Lemma assess_conditions_Ok (c : pydict) (w w' : world) (status : pydict) :
  _assess_conditions (VDict c) w = (Ok status, w') ->
  w' = w /\
  (exists ts vs ds,
     status = [("temperature_status", VStr ts); ("vegetation_status", VStr vs);
               ("dust_signature_status", VStr ds)]) /\
  (exists v, dict_get "lst_day_mean" c = Some v /\ numeric v = true) /\
  (exists v, dict_get "ndvi_mean" c = Some v /\ numeric v = true) /\
  (exists v, dict_get "nddi_mean" c = Some v /\ numeric v = true).
Proof.
  unfold _assess_conditions. intros Hrun.
  apply bind_Ok in Hrun as (v1 & w1 & H1 & Hrun).
  apply py_getitem_Ok in H1 as (-> & d1 & [= <-] & G1).
  apply bind_Ok in Hrun as (q1 & w2 & N1 & Hrun).
  apply as_number_Ok in N1 as (-> & N1).
  apply bind_Ok in Hrun as (v2 & w3 & H2 & Hrun).
  apply py_getitem_Ok in H2 as (-> & d2 & [= <-] & G2).
  apply bind_Ok in Hrun as (q2 & w4 & N2 & Hrun).
  apply as_number_Ok in N2 as (-> & N2).
  apply bind_Ok in Hrun as (v3 & w5 & H3 & Hrun).
  apply py_getitem_Ok in H3 as (-> & d3 & [= <-] & G3).
  apply bind_Ok in Hrun as (q3 & w6 & N3 & Hrun).
  apply as_number_Ok in N3 as (-> & N3).
  unfold ret in Hrun. injection Hrun as <- <-.
  split; [reflexivity |]. split; [eauto |]. eauto 10.
Qed.

Section OrchestratorMore.
Context {rt : Builtins} {backend : EarthEngine}.

(** X16. An envelope of [get_current_conditions] without an ["error"] key is
    complete: it has the three status labels as strings, numeric
    [lst_day_mean], [ndvi_mean] and [nddi_mean], a string [risk_level], the
    fixed location and coordinates, and the cache statistics of the state it
    is returned in. *)
Theorem success_envelope_complete
  (self : pyval) (days_back : Z) (w w' : world) (envelope : pydict) :
  get_current_conditions self days_back w = (Ok (VDict envelope), w') ->
  dict_mem "error" envelope = false ->
  (exists ts vs ds,
     dict_get "temperature_status" envelope = Some (VStr ts) /\
     dict_get "vegetation_status" envelope = Some (VStr vs) /\
     dict_get "dust_signature_status" envelope = Some (VStr ds)) /\
  (exists v, dict_get "lst_day_mean" envelope = Some v /\ numeric v = true) /\
  (exists v, dict_get "ndvi_mean" envelope = Some v /\ numeric v = true) /\
  (exists v, dict_get "nddi_mean" envelope = Some v /\ numeric v = true) /\
  (exists level, dict_get "risk_level" envelope = Some (VStr level)) /\
  dict_get "location" envelope = Some (VStr "Tashkent_Uzbekistan") /\
  dict_get "coordinates" envelope = Some tashkent_coords /\
  dict_get "cache_stats" envelope = Some (cache_stats_of w').
Proof.
  intros Hrun Hnoerr.
  unfold get_current_conditions, try_except in Hrun.
  destruct (current_conditions_chain self days_back w) as [[r | e] w1] eqn:Hchain.
  2:{ unfold bind in Hrun. rewrite get_stats_snapshot in Hrun.
      unfold ret in Hrun. injection Hrun as <- <-. discriminate. }
  injection Hrun as -> ->.
  unfold current_conditions_chain in Hchain.
  do 9 (apply bind_Ok in Hchain as (? & ? & _ & Hchain)).
  apply bind_Ok in Hchain as (r1 & ? & _ & Hchain).
  apply bind_Ok in Hchain as (r2 & ? & _ & Hchain).
  apply bind_Ok in Hchain as (r3 & ws & S3 & Hchain).
  apply bind_Ok in Hchain as (stats & ws' & Hstats & Hchain).
  rewrite get_stats_snapshot in Hstats. injection Hstats as <- <-.
  apply bind_Ok in Hchain as (status & wa & Hassess & Hchain).
  apply assess_conditions_Ok in Hassess
    as (-> & (ts & vs & ds & ->) & (v1 & G1 & N1) & (v2 & G2 & N2) & (v3 & G3 & N3)).
  apply bind_Ok in Hchain as (level & wl & Hlevel & Hchain).
  apply py_getitem_Ok in Hlevel as (-> & d & [= <-] & Glevel).
  apply bind_Ok in Hchain as ([] & wu & Hupper & Hchain).
  unfold py_upper in Hupper. destruct level; try discriminate.
  unfold ret in Hupper, Hchain. injection Hupper as <-. injection Hchain as <- <-.
  cbn [dict_update fold_left fst snd] in *.
  repeat split.
  - exists ts, vs, ds. repeat split.
    + rewrite !dict_get_set_other by discriminate. apply dict_get_set_same.
    + rewrite dict_get_set_other by discriminate. apply dict_get_set_same.
    + apply dict_get_set_same.
  - exists v1. split; [| exact N1]. rewrite !dict_get_set_other by discriminate.
    rewrite !dict_get_set_other in G1 by discriminate. exact G1.
  - exists v2. split; [| exact N2]. rewrite !dict_get_set_other by discriminate.
    rewrite !dict_get_set_other in G2 by discriminate. exact G2.
  - exists v3. split; [| exact N3]. rewrite !dict_get_set_other by discriminate.
    rewrite !dict_get_set_other in G3 by discriminate. exact G3.
  - eexists. exact Glevel.
  - rewrite !dict_get_set_other by discriminate. apply dict_get_set_same.
  - rewrite !dict_get_set_other by discriminate. apply dict_get_set_same.
  - rewrite !dict_get_set_other by discriminate. apply dict_get_set_same.
Qed.

End OrchestratorMore.

(** ** More on the forecast *)




Section ForecastMore.
Context {rt : Builtins} {backend : EarthEngine}.

















(** X22. A day count of zero or less is not an error: when the current
    conditions are there (whatever the base inputs are), the forecast is the
    empty list and no random draw is taken. *)
Theorem generate_forecast_no_days
  (self : pyval) (N : Z) (w w1 : world) (current : pydict)
  (base_risk base_temp base_ndvi : pyval) :
  N <= 0 ->
  get_current_conditions self 60 w = (Ok (VDict current), w1) ->
  dict_mem "error" current = false ->
  dict_get "dust_risk_index" current = Some base_risk ->
  dict_get "lst_day_mean" current = Some base_temp ->
  dict_get "ndvi_mean" current = Some base_ndvi ->
  generate_forecast_body [self; VInt N] w = (Ok (VList []), w1).
Proof.
  intros HN Hcur Herr Hrisk Htemp Hndvi.
  unfold generate_forecast_body, try_except.
  rewrite (bind_step _ _ _ _ _ Hcur).
  cbv [py_contains bind ret py_getitem range_count].
  rewrite Herr, Hrisk, Htemp, Hndvi.
  replace (Z.to_nat N) with 0%nat by lia. reflexivity.
Qed.

End ForecastMore.

(** ** Clearing the cache *)

Lemma files_remove_file_same (ct : cache_type) (fn : string) (w : world) :
  d_files (dir_of ct (remove_file (ct, fn) w)) = delete fn (d_files (dir_of ct w)).
Proof. destruct ct; reflexivity. Qed.

Lemma dir_remove_file_other (ct ct' : cache_type) (fn : string) (w : world) :
  ct <> ct' -> dir_of ct' (remove_file (ct, fn) w) = dir_of ct' w.
Proof. destruct ct, ct'; intros Hne; try reflexivity; contradiction. Qed.

Lemma writable_remove_file (ct : cache_type) (p : path) (w : world) :
  d_writable (dir_of ct (remove_file p w)) = d_writable (dir_of ct w).
Proof. destruct p as [[] n], ct; reflexivity. Qed.

Lemma remove_all_empties (ct : cache_type) (names : list string) :
  forall (c : Z) (w : world),
    d_writable (dir_of ct w) = true ->
    NoDup names ->
    (forall fn, fn ∈ names -> is_Some (d_files (dir_of ct w) !! fn)) ->
    exists w',
      remove_all ct names c w = (Ok (c + Z.of_nat (length names)), w') /\
      same_settings w w' /\
      (forall ct', ct <> ct' -> dir_of ct' w' = dir_of ct' w) /\
      (forall fn,
         d_files (dir_of ct w') !! fn
         = if bool_decide (fn ∈ names) then None else d_files (dir_of ct w) !! fn).
Proof.
  induction names as [| h rest IH]; intros c w Hw Hnd Hin.
  - exists w. cbn. split; [unfold ret; f_equal; f_equal; lia |].
    split; [apply same_settings_refl |]. split; [reflexivity |]. reflexivity.
  - apply NoDup_cons in Hnd as [Hh Hnd].
    destruct (Hin h) as [f Hf]; [left |].
    cbn [remove_all].
    assert (Hrm : os_remove (ct, h) w = (Ok tt, remove_file (ct, h) w)).
    { unfold os_remove, lookup_file. cbn [fst snd]. rewrite Hf, Hw. reflexivity. }
    rewrite (bind_step _ _ _ _ _ Hrm).
    destruct (IH (c + 1) (remove_file (ct, h) w)) as (w' & Hrun & Hs & Hother & Hfiles).
    + rewrite writable_remove_file. exact Hw.
    + exact Hnd.
    + intros fn Hfn. rewrite files_remove_file_same, lookup_delete_ne.
      * apply Hin. right. exact Hfn.
      * intros ->. contradiction.
    + exists w'. split; [rewrite Hrun; f_equal; f_equal; cbn [length]; lia |].
      split; [eapply same_settings_trans; [apply same_settings_remove_file | exact Hs] |].
      split.
      * intros ct' Hne. rewrite (Hother ct' Hne). apply dir_remove_file_other, Hne.
      * intros fn. rewrite Hfiles, files_remove_file_same.
        destruct (decide (fn = h)) as [-> | Hne].
        -- rewrite lookup_delete_eq.
           rewrite (bool_decide_eq_true_2 (h ∈ h :: rest)) by left.
           destruct (bool_decide _); reflexivity.
        -- rewrite lookup_delete_ne by congruence.
           replace (bool_decide (fn ∈ h :: rest)) with (bool_decide (fn ∈ rest));
             [reflexivity |].
           apply bool_decide_ext. rewrite elem_of_cons. tauto.
Qed.

Lemma listed_in_dir (ct : cache_type) (w : world) (fn : string) :
  fn ∈ (map_to_list (d_files (dir_of ct w))).*1 <-> is_Some (d_files (dir_of ct w) !! fn).
Proof.
  rewrite list_elem_of_fmap. split.
  - intros ([k f] & -> & Hin). apply elem_of_map_to_list in Hin. eauto.
  - intros [f Hf]. exists (fn, f). split; [reflexivity |].
    apply elem_of_map_to_list. exact Hf.
Qed.

Lemma remove_all_listed (ct : cache_type) (c : Z) (w : world) :
  d_writable (dir_of ct w) = true ->
  exists w',
    remove_all ct ((map_to_list (d_files (dir_of ct w))).*1) c w
      = (Ok (c + Z.of_nat (size (d_files (dir_of ct w)))), w') /\
    same_settings w w' /\
    (forall ct', ct <> ct' -> dir_of ct' w' = dir_of ct' w) /\
    d_files (dir_of ct w') = ∅.
Proof.
  intros Hw.
  destruct (remove_all_empties ct ((map_to_list (d_files (dir_of ct w))).*1) c w Hw)
    as (w' & Hrun & Hs & Hother & Hfiles).
  { apply NoDup_fst_map_to_list. }
  { intros fn Hfn. apply listed_in_dir, Hfn. }
  exists w'. split.
  { rewrite Hrun, length_fmap, length_map_to_list. reflexivity. }
  split; [exact Hs |]. split; [exact Hother |].
  apply map_empty. intros fn. rewrite Hfiles.
  destruct (bool_decide (fn ∈ _)) eqn:E; [reflexivity |].
  apply bool_decide_eq_false_1 in E.
  destruct (d_files (dir_of ct w) !! fn) eqn:Hl; [| reflexivity].
  exfalso. apply E, listed_in_dir. eauto.
Qed.

Section Routes.
Context {rt : Builtins}.

(** X23. Clearing the cache, both directories accepting removals: the answer
    has status 200 and reports as many removed files as the two directories
    held; afterwards both directories are empty, the four counters are 0,
    and a read of any key is a miss. *)
Theorem clear_cache_empties (w : world) :
  d_writable (w_data w) = true ->
  d_writable (w_meta w) = true ->
  exists (body : pyval) (w' : world),
    clear_cache w = (Ok (body, 200), w') /\
    py_getitem body "cleared_files" w'
      = (Ok (VInt (Z.of_nat (size (d_files (w_data w)))
                   + Z.of_nat (size (d_files (w_meta w))))), w') /\
    d_files (w_data w') = ∅ /\
    d_files (w_meta w') = ∅ /\
    w_stats w' = {| hits := 0; misses := 0; saves := 0; errors := 0 |} /\
    (forall k ttl_minutes, get k ttl_minutes w' = (Ok VNone, bump c_misses w')).
Proof.
  intros Hd Hm.
  destruct (remove_all_listed data 0 w Hd) as (w1 & Hrun1 & Hs1 & Hother1 & Hempty1).
  assert (Hm1 : d_writable (dir_of metadata_dir w1) = true).
  { rewrite (Hother1 metadata_dir) by discriminate. exact Hm. }
  destruct (remove_all_listed metadata_dir
              (0 + Z.of_nat (size (d_files (dir_of data w)))) w1 Hm1)
    as (w2 & Hrun2 & Hs2 & Hother2 & Hempty2).
  unfold clear_cache, try_except.
  rewrite (bind_step (os_listdir data) _ w w _ eq_refl).
  rewrite (bind_step _ _ _ _ _ Hrun1).
  rewrite (bind_step (os_listdir metadata_dir) _ w1 w1 _ eq_refl).
  rewrite (bind_step _ _ _ _ _ Hrun2).
  unfold bind, reset_stats, ret.
  eexists _, _. split; [reflexivity |].
  assert (Hdata2 : d_files (w_data w2) = ∅).
  { change (w_data w2) with (dir_of data w2).
    rewrite (Hother2 data) by discriminate. exact Hempty1. }
  split; [| split; [exact Hdata2 | split; [exact Hempty2 | split; [reflexivity |]]]].
  - cbn [py_getitem dict_get String.eqb Ascii.eqb Bool.eqb]. unfold ret.
    rewrite (Hother1 metadata_dir) by discriminate. cbn [dir_of].
    reflexivity.
  - intros k ttl_minutes. rewrite get_cases.
    unfold lookup_file, get_cache_path. cbn [fst snd dir_of with_stats w_data].
    rewrite Hdata2, lookup_empty. reflexivity.
Qed.

(** X24. Clearing the cache when the data directory holds a file and refuses
    removals: the failure of the first removal is answered with status 500
    and the string of the exception; no file is removed and the counters are
    not reset. *)
Theorem clear_cache_readonly (w : world) :
  d_writable (w_data w) = false ->
  d_files (w_data w) <> ∅ ->
  exists msg, clear_cache w = (Ok (VDict [("error", VStr msg)], 500), w).
Proof.
  intros Hd Hne.
  destruct (map_to_list (d_files (w_data w))) as [| [h f] rest] eqn:Hl.
  { apply map_to_list_empty_iff in Hl. contradiction. }
  assert (Hf : d_files (w_data w) !! h = Some f).
  { apply elem_of_map_to_list. rewrite Hl. left. }
  unfold clear_cache, try_except.
  rewrite (bind_step (os_listdir data) _ w w _ eq_refl).
  cbn [dir_of]. rewrite Hl. cbn [fmap list_fmap fst remove_all].
  unfold bind at 1. unfold bind at 1.
  unfold os_remove, lookup_file. cbn [fst snd dir_of]. rewrite Hf, Hd.
  unfold ret. eauto.
Qed.

End Routes.

(** ** The statistics *)


Section Statistics.
Context {rt : Builtins}.

Lemma scan_sizes_all (w : world) (l : list (string * file)) :
  forall cache_size cache_files,
    (forall fn f, (fn, f) ∈ l -> d_files (w_data w) !! fn = Some f) ->
    scan_sizes (l.*1) cache_size cache_files w
    = (cache_size
       + fold_right (fun p acc => getsize (f_content (snd p)) + acc) 0
           (List.filter (fun p => endswith_pkl (fst p)) l),
       cache_files
       + Z.of_nat (length (List.filter (fun p => endswith_pkl (fst p)) l))).
Proof.
  induction l as [| [fn f] l IH]; intros cache_size cache_files Hl.
  - cbn. f_equal; lia.
  - cbn [fmap list_fmap fst scan_sizes List.filter].
    change (list_fmap _ _ fst l) with (l.*1).
    destruct (endswith_pkl fn).
    + unfold os_path_getsize, lookup_file. cbn [fst snd dir_of].
      rewrite (Hl fn f) by left.
      rewrite IH by (intros; apply Hl; right; assumption).
      cbn [fold_right length snd]. f_equal; lia.
    + apply IH. intros; apply Hl; right; assumption.
Qed.

Lemma get_stats_scan (w : world) :
  match os_listdir data w with
  | (Ok names, _) => scan_sizes names 0 0 w
  | (Raise _, _) => (0, 0)
  end = (pkl_bytes w, Z.of_nat (length (pkl_entries w))).
Proof.
  unfold os_listdir. cbn [dir_of]. rewrite scan_sizes_all.
  - reflexivity.
  - intros fn f Hin. apply elem_of_map_to_list, Hin.
Qed.

Lemma reported_cache_files (w : world) :
  reported "cache_files" w = Some (VInt (Z.of_nat (length (pkl_entries w)))).
Proof.
  unfold reported, cache_stats_of, get_stats. rewrite get_stats_scan. reflexivity.
Qed.


(** X25. The statistics never fail and change nothing: the scan of the data
    directory counts every [.pkl] file and adds up their sizes (no file it
    lists can be missing), [total_requests] is hits plus misses, and with no
    request so far the hit rate is the integer 0, not a division by zero. *)
Theorem get_stats_counts (w : world) :
  get_stats w = (Ok (cache_stats_of w), w) /\
  reported "cache_files" w = Some (VInt (Z.of_nat (length (pkl_entries w)))) /\
  reported "cache_size_mb" w
    = Some (VFloat (py_round (inject_Z (pkl_bytes w) / 1024 / 1024)%Q 2)) /\
  reported "total_requests" w = Some (VInt (hits (w_stats w) + misses (w_stats w))) /\
  (hits (w_stats w) + misses (w_stats w) <= 0 ->
   reported "hit_rate_percent" w = Some (VInt 0)).
Proof.
  split; [apply get_stats_snapshot |].
  split; [apply reported_cache_files |].
  unfold reported, cache_stats_of, get_stats. rewrite get_stats_scan.
  split; [reflexivity |]. split; [reflexivity |].
  intros H0. apply Z.ltb_ge in H0. rewrite H0. reflexivity.
Qed.


End Statistics.

(** ** The pipeline on a warm cache *)

Section WarmCache.
Context {rt : Builtins}.

Lemma get_fresh_hit (k : string) (minutes : Q) (w : world) (f : file) (v : pyval) :
  lookup_file (get_cache_path k data) w = Some f ->
  f_content f = Pickled v ->
  Qeq_bool minutes 0 = false ->
  (w_clock w - f_mtime f < minutes * 60)%Q ->
  get k (Some minutes) w = (Ok v, bump c_hits w).
Proof.
  intros Hf Hc Hm Hage. rewrite get_cases, Hf. unfold reader_ttl. rewrite Hm.
  apply Qltb_lt in Hage. rewrite Hage, Hc. reflexivity.
Qed.

(** X27. With the records of the two fetches for the period in the cache,
    fresh (younger than 30 minutes for MODIS, 60 for Landsat) and holding a
    payload other than [None], [get_current_conditions] does not call the
    backend: its result and the state it leaves are the same with any two
    backends, one that cannot be reached included. *)
Theorem fresh_fetches_spare_the_backend
  (backend backend' : EarthEngine) (self : pyval) (days_back : Z) (w : world)
  (f_modis f_landsat : file) (modis_data landsat_data : pyval) :
  let start_str := VStr (strftime "%Y-%m-%d" (w_clock w) (- days_back)) in
  let end_str := VStr (strftime "%Y-%m-%d" (w_clock w) 0) in
  lookup_file
    (get_cache_path (generate_cache_key [VStr "get_modis_data"; self; start_str; end_str] [])
       data) w = Some f_modis ->
  f_content f_modis = Pickled modis_data ->
  modis_data <> VNone ->
  (w_clock w - f_mtime f_modis < 30 * 60)%Q ->
  lookup_file
    (get_cache_path (generate_cache_key [VStr "get_landsat_data"; self; start_str; end_str] [])
       data) w = Some f_landsat ->
  f_content f_landsat = Pickled landsat_data ->
  landsat_data <> VNone ->
  (w_clock w - f_mtime f_landsat < 60 * 60)%Q ->
  @get_current_conditions rt backend self days_back w
  = @get_current_conditions rt backend' self days_back w.
Proof.
  intros start_str end_str Hfm Hcm Hnm Hagem Hfl Hcl Hnl Hagel.
  assert (Hm : forall b : EarthEngine,
             @get_modis_data rt b [self; start_str; end_str] [] w
             = (Ok modis_data, bump c_hits w)).
  { intros b. unfold get_modis_data. apply cached_operation_hit; [| exact Hnm].
    eapply get_fresh_hit; eauto. }
  assert (Hl : forall b : EarthEngine,
             @get_landsat_data rt b [self; start_str; end_str] [] (bump c_hits w)
             = (Ok landsat_data, bump c_hits (bump c_hits w))).
  { intros b. unfold get_landsat_data. apply cached_operation_hit; [| exact Hnl].
    eapply get_fresh_hit; [rewrite lookup_file_bump; exact Hfl | exact Hcl | reflexivity |].
    exact Hagel. }
  unfold get_current_conditions, try_except, current_conditions_chain.
  rewrite !(bind_step time_time _ w w (w_clock w)) by reflexivity.
  rewrite (bind_step _ _ _ _ _ (Hm backend)), (bind_step _ _ _ _ _ (Hm backend')).
  rewrite (bind_step _ _ _ _ _ (Hl backend)), (bind_step _ _ _ _ _ (Hl backend')).
  reflexivity.
Qed.

End WarmCache.

(** * Examples *)

Section Examples.
Local Existing Instance sample_builtins.

(** A wrapped operation that raises: nothing is stored, the caller sees the
    exception. *)
Lemma cached_operation_behaviour_witness :
  cached_operation (Some 30%Q) "op"
    (fun _ _ => raise (Exn "EEException" "backend unreachable")) [] [] empty_world
  = (Raise (Exn "EEException" "backend unreachable"), bump c_misses empty_world).
Proof.
  apply (proj2 (proj2 (cached_operation_behaviour (Some 30%Q) "op"
                         (fun _ _ => raise (Exn "EEException" "backend unreachable"))
                         [] [] empty_world)))
    with (w1 := bump c_misses empty_world).
  - vm_compute. reflexivity.
  - reflexivity.
Defined.

(** A cached [None] counts as a hit of the store, and yet the operation runs
    again: the wrapper returns its result, not the stored payload. *)
Lemma cached_None_counterexample :
  get (generate_cache_key [VStr "op"] []) (Some 30%Q)
      (world_with (generate_cache_key [VStr "op"] []) VNone)
    = (Ok VNone, bump c_hits (world_with (generate_cache_key [VStr "op"] []) VNone)) /\
  fst (cached_operation (Some 30%Q) "op" (fun _ _ => ret (VInt 1)) [] []
         (world_with (generate_cache_key [VStr "op"] []) VNone))
    = Ok (VInt 1).
Proof. split; vm_compute; reflexivity. Qed.

Lemma generate_cache_key_deterministic_witness :
  generate_cache_key [VStr "op"; VInt 1] [("start", VInt 2); ("end", VInt 3)]
  = generate_cache_key [VStr "op"; VInt 1] [("end", VInt 3); ("start", VInt 2)].
Proof.
  apply (generate_cache_key_deterministic "op" [VInt 1]
           [("start", VInt 2); ("end", VInt 3)] [("end", VInt 3); ("start", VInt 2)]).
  - cbn. repeat constructor; cbn; intuition discriminate.
  - apply perm_swap.
Defined.

(** Ten seconds after the write, a reader with a TTL of one minute. *)
Lemma ttl_validity_witness :
  fst (get "k" (Some 1%Q) (at_time (0 + 60 - 1) (world_with "k" (VInt 1)))) = Ok (VInt 1) /\
  fst (get "k" (Some 1%Q) (at_time (0 + 60 + 1) (world_with "k" (VInt 1)))) = Ok VNone.
Proof.
  apply (proj1 (proj2 (proj2 (proj2
           (ttl_validity (world_with "k" (VInt 1)) "k" (Some 1%Q)
              (stored (VInt 1) empty_world) (VInt 1) eq_refl eq_refl)))) 1%Q).
  reflexivity.
Defined.

(** A reader TTL of zero is not "no entry is ever valid": the store default
    applies, and an entry ten seconds old is a hit. *)
Lemma ttl_zero_counterexample :
  is_cache_valid (get_cache_path "k" data) (ttl_seconds_of (Some 0%Q))
    (world_with "k" (VInt 1)) = (Ok true, world_with "k" (VInt 1)) /\
  fst (get "k" (Some 0%Q) (world_with "k" (VInt 1))) = Ok (VInt 1) /\
  ~ (w_clock (world_with "k" (VInt 1)) - 0
     < stated_ttl (Some 0%Q) (w_default_ttl (world_with "k" (VInt 1))))%Q.
Proof.
  split; [vm_compute; reflexivity |]. split; [vm_compute; reflexivity |].
  vm_compute. discriminate.
Qed.

(** A sweep at a default of 30 minutes: the entry 2000 seconds old goes, the
    one 1000 seconds old stays, although a 120-minute reader still finds the
    old one valid. *)
Lemma clear_expired_sweeps_witness :
  exists (n : Z) (w' : world),
    clear_expired sweep_world = (Ok n, w') /\
    n = Z.of_nat (size (d_files (w_data sweep_world)))
        - Z.of_nat (size (d_files (w_data w'))) /\
    is_cache_valid (get_cache_path "old" data) (ttl_seconds_of (Some 120%Q)) sweep_world
      = (Ok true, sweep_world) /\
    lookup_file (get_cache_path "old" data) w' = None.
Proof.
  destruct (clear_expired_sweeps sweep_world eq_refl eq_refl)
    as (n & w' & Hrun & _ & _ & Hn & Hold).
  exists n, w'. split; [exact Hrun |]. split; [exact Hn |].
  apply (Hold "old" (stored (VInt 1) empty_world) (Some 120%Q)).
  - vm_compute. reflexivity.
  - vm_compute. discriminate.
  - vm_compute. reflexivity.
Defined.



(** A write into a directory that refuses it: swallowed and counted *)
Lemma get_set_never_raise_witness :
  errors (w_stats (snd (set "k" (VInt 1) readonly_world)))
    = errors (w_stats readonly_world) + 1 /\
  saves (w_stats (snd (set "k" (VInt 1) readonly_world))) = saves (w_stats readonly_world).
Proof.
  apply (proj1 (proj2 (proj2 (proj2
           (get_set_never_raise "k" None (VInt 1) readonly_world))))).
  left. reflexivity.
Defined.

(** The backend cannot be reached: the MODIS fetch raises and the caller
    gets the error record. *)
Lemma get_current_conditions_fails_soft_witness :
  exists stats,
    fst (@get_current_conditions sample_builtins offline_engine the_analyzer 60 empty_world)
    = Ok (VDict [("error", VStr "backend unreachable"); ("cache_stats", stats)]).
Proof.
  eexists.
  rewrite (proj1 (proj2 (proj2
             (@get_current_conditions_fails_soft sample_builtins offline_engine
                the_analyzer 60 empty_world)))
             (Exn "EEException" "backend unreachable") (bump c_misses empty_world)).
  - reflexivity.
  - vm_compute. reflexivity.
Defined.




End Examples.

(** * Examples of the further properties *)

Section MoreExamples.
Local Existing Instance sample_builtins.

(** An entry 5000 seconds old read with the store default of 1800 seconds *)
Lemma get_absent_or_stale_is_miss_witness :
  get "k" None (at_time 5000 (world_with "k" (VInt 1)))
  = (Ok VNone, bump c_misses (at_time 5000 (world_with "k" (VInt 1)))).
Proof.
  apply (get_absent_or_stale_is_miss "k" None (at_time 5000 (world_with "k" (VInt 1)))).
  right. exists (stored (VInt 1) empty_world).
  split; [vm_compute; reflexivity | vm_compute; discriminate].
Defined.




Lemma clear_expired_readonly_witness :
  clear_expired locked_world = (Ok 0, locked_world).
Proof. apply (clear_expired_readonly locked_world). reflexivity. Defined.

Lemma clear_expired_idempotent_witness :
  exists (n : Z) (w' : world),
    clear_expired sweep_world = (Ok n, w') /\
    (forall fn, expired_entry w' fn = false) /\
    clear_expired w' = (Ok 0, w').
Proof. apply (clear_expired_idempotent sweep_world); reflexivity. Defined.

Lemma cached_operation_memoizes_witness :
  fst (cached_operation (Some 30%Q) "op" (fun _ _ => ret (VInt 7)) [VInt 1] [] empty_world)
    = Ok (VInt 7) /\
  forall func' : pyfunc,
    cached_operation (Some 30%Q) "op" func' [VInt 1] []
      (at_time 10
         (snd (cached_operation (Some 30%Q) "op" (fun _ _ => ret (VInt 7)) [VInt 1] []
                 empty_world)))
    = (Ok (VInt 7),
       bump c_hits
         (at_time 10
            (snd (cached_operation (Some 30%Q) "op" (fun _ _ => ret (VInt 7)) [VInt 1] []
                    empty_world)))).
Proof.
  apply (cached_operation_memoizes (Some 30%Q) "op" (fun _ _ => ret (VInt 7)) [VInt 1] []
           empty_world (bump c_misses empty_world) (bump c_misses empty_world)
           (VInt 7) 10%Q).
  - vm_compute. reflexivity.
  - reflexivity.
  - discriminate.
  - reflexivity.
  - reflexivity.
  - vm_compute. reflexivity.
Defined.

Lemma cached_operation_unstorable_witness :
  cached_operation (Some 30%Q) "op" (fun _ _ => ret (VInt 7)) [VInt 1] [] readonly_world
  = (Ok (VInt 7), bump c_errors (bump c_misses readonly_world)).
Proof.
  apply (cached_operation_unstorable (Some 30%Q) "op" (fun _ _ => ret (VInt 7)) [VInt 1] []
           readonly_world (bump c_misses readonly_world) (bump c_misses readonly_world)
           (VInt 7)).
  - vm_compute. reflexivity.
  - reflexivity.
  - reflexivity.
Defined.

(** The deviation of the temperature is left out by the backend *)
Lemma fetch_defaults_missing_statistics_witness :
  @get_modis_data_body sparse_engine (VStr "2024-04-01") (VStr "2024-05-31")
    empty_world
  = (Ok (VDict [("lst_day_mean", VFloat 30%Q);
                ("lst_day_std", VFloat 0%Q);
                ("modis_count", VInt 1)]), empty_world).
Proof.
  apply (proj1 (@fetch_defaults_missing_statistics sparse_engine
                  (VStr "2024-04-01") (VStr "2024-05-31")
                  empty_world empty_world empty_world
                  [("LST_Day_1km_mean", Some 30%Q)] 1)).
  - reflexivity.
  - reflexivity.
  - discriminate.
  - discriminate.
Defined.

Lemma null_statistic_fails_the_analysis_witness :
  exists e,
    exn_class e = "TypeError" /\
    fst (@get_current_conditions sample_builtins no_image_engine the_analyzer 60 empty_world)
    = Ok (error_envelope e (bump c_misses empty_world)).
Proof.
  destruct (@null_statistic_fails_the_analysis sample_builtins no_image_engine
              the_analyzer 60 empty_world (bump c_misses empty_world)
              [("LST_Day_1km_mean", None); ("LST_Day_1km_stdDev", None)])
    as (e & Hclass & _ & Hrun).
  - vm_compute. reflexivity.
  - reflexivity.
  - reflexivity.
  - exists e. split; [exact Hclass |]. rewrite Hrun. reflexivity.
Defined.

Lemma dust_risk_monotone_witness :
  (dust_risk_index (dust_risk 30 0.2 0.2) <= dust_risk_index (dust_risk 35 0.1 0.3))%Q.
Proof.
  apply (dust_risk_monotone 30 35 0.2 0.1 0.2 0.3); vm_compute; discriminate.
Defined.

Lemma statuses_bound_the_level_witness :
  exists temp_status veg_status dust_status : string,
    _assess_conditions
      (VDict [("lst_day_mean", VFloat 30%Q); ("ndvi_mean", VFloat 0.1%Q);
              ("nddi_mean", VFloat 0.2%Q)]) empty_world
    = (Ok [("temperature_status", VStr temp_status);
           ("vegetation_status", VStr veg_status);
           ("dust_signature_status", VStr dust_status)], empty_world) /\
    (risk_level (dust_risk 30 0.1 0.2) = "high" ->
     temp_status = "High" \/ veg_status = "Low vegetation" \/
     dust_status = "Elevated dust signature detected").
Proof.
  destruct (statuses_bound_the_level
              [("lst_day_mean", VFloat 30%Q); ("ndvi_mean", VFloat 0.1%Q);
               ("nddi_mean", VFloat 0.2%Q)] 30%Q 0.1%Q 0.2%Q empty_world
              eq_refl eq_refl eq_refl)
    as (ts & vs & ds & Hrun & _ & _ & Hhigh).
  exists ts, vs, ds. split; [exact Hrun | exact Hhigh].
Defined.

(** A run that returns [a] returns it in the state the run leaves. *)
Lemma run_split {A : Type} (c : M A) (w : world) (a : A) :
  fst (c w) = Ok a -> c w = (Ok a, snd (c w)).
Proof. destruct (c w) as [o w']. cbn. intros ->. reflexivity. Qed.

Ltac with_envelope backend self w tac :=
  let r := eval vm_compute in
    (fst (@get_current_conditions sample_builtins backend self 60 w)) in
  lazymatch r with
  | Ok (VDict ?envelope) => tac envelope
  end.

Lemma success_envelope_complete_witness :
  exists envelope,
    @get_current_conditions sample_builtins online_engine the_analyzer 60 empty_world
      = (Ok (VDict envelope),
         snd (@get_current_conditions sample_builtins online_engine the_analyzer 60
                empty_world)) /\
    (exists level, dict_get "risk_level" envelope = Some (VStr level)) /\
    dict_get "location" envelope = Some (VStr "Tashkent_Uzbekistan") /\
    dict_get "cache_stats" envelope
      = Some (cache_stats_of
                (snd (@get_current_conditions sample_builtins online_engine the_analyzer 60
                        empty_world))).
Proof.
  with_envelope online_engine the_analyzer empty_world
    ltac:(fun envelope =>
      assert (Hrun : @get_current_conditions sample_builtins online_engine the_analyzer 60
                       empty_world
                     = (Ok (VDict envelope),
                        snd (@get_current_conditions sample_builtins online_engine
                               the_analyzer 60 empty_world)))
        by (apply run_split; vm_compute; reflexivity);
      destruct (@success_envelope_complete sample_builtins online_engine the_analyzer 60
                  empty_world _ envelope Hrun)
        as (_ & _ & _ & _ & Hlevel & Hloc & _ & Hstats);
      [ vm_compute; reflexivity
      | exists envelope;
        split; [exact Hrun |];
        split; [exact Hlevel |]; split; [exact Hloc | exact Hstats] ]).
Defined.

Ltac with_base_inputs backend self w tac :=
  let r := eval vm_compute in
    (fst (@get_current_conditions sample_builtins backend self 60 w)) in
  lazymatch r with
  | Ok (VDict ?current) =>
      let risk := eval vm_compute in (dict_get "dust_risk_index" current) in
      let temp := eval vm_compute in (dict_get "lst_day_mean" current) in
      let ndvi := eval vm_compute in (dict_get "ndvi_mean" current) in
      lazymatch constr:((risk, temp, ndvi)) with
      | (Some (VFloat ?br), Some (VFloat ?bt), Some ?bn) =>
          tac (snd (@get_current_conditions sample_builtins backend self 60 w))
              current br bt bn
      end
  end.






Lemma generate_forecast_no_days_witness :
  fst (@generate_forecast_body sample_builtins online_engine [the_analyzer; VInt 0]
         empty_world)
  = Ok (VList []).
Proof.
  with_base_inputs online_engine the_analyzer empty_world
    ltac:(fun w1 current br bt bn =>
      rewrite (@generate_forecast_no_days sample_builtins online_engine the_analyzer 0
                 empty_world w1 current (VFloat br) (VFloat bt) bn);
      [ reflexivity
      | lia
      | apply run_split; vm_compute; reflexivity
      | vm_compute; reflexivity
      | vm_compute; reflexivity
      | vm_compute; reflexivity
      | vm_compute; reflexivity ]).
Defined.

(** Two entries in the data directory, none in the metadata directory *)
Lemma clear_cache_empties_witness :
  exists (body : pyval) (w' : world),
    clear_cache sweep_world = (Ok (body, 200), w') /\
    py_getitem body "cleared_files" w'
      = (Ok (VInt (Z.of_nat (size (d_files (w_data sweep_world)))
                   + Z.of_nat (size (d_files (w_meta sweep_world))))), w') /\
    d_files (w_data w') = ∅ /\
    d_files (w_meta w') = ∅ /\
    w_stats w' = {| hits := 0; misses := 0; saves := 0; errors := 0 |} /\
    (forall k ttl_minutes, get k ttl_minutes w' = (Ok VNone, bump c_misses w')).
Proof. apply (clear_cache_empties sweep_world); reflexivity. Defined.

Lemma clear_cache_readonly_witness :
  exists msg, clear_cache locked_world = (Ok (VDict [("error", VStr msg)], 500), locked_world).
Proof.
  apply (clear_cache_readonly locked_world).
  - reflexivity.
  - intros E. apply (f_equal (fun m : gmap string file => size m)) in E.
    vm_compute in E. discriminate.
Defined.


(** Ten minutes after a first analysis, the backend goes away *)
Lemma fresh_fetches_spare_the_backend_witness :
  @get_current_conditions sample_builtins online_engine the_analyzer 60
    (at_time 600
       (snd (@get_current_conditions sample_builtins online_engine the_analyzer 60
               empty_world)))
  = @get_current_conditions sample_builtins offline_engine the_analyzer 60
      (at_time 600
         (snd (@get_current_conditions sample_builtins online_engine the_analyzer 60
                 empty_world))).
Proof.
  set (w := at_time 600
              (snd (@get_current_conditions sample_builtins online_engine the_analyzer 60
                      empty_world))).
  let fm := eval vm_compute in
    (lookup_file
       (get_cache_path
          (generate_cache_key
             [VStr "get_modis_data"; the_analyzer;
              VStr (strftime "%Y-%m-%d" (w_clock w) (- 60));
              VStr (strftime "%Y-%m-%d" (w_clock w) 0)] []) data) w) in
  let fl := eval vm_compute in
    (lookup_file
       (get_cache_path
          (generate_cache_key
             [VStr "get_landsat_data"; the_analyzer;
              VStr (strftime "%Y-%m-%d" (w_clock w) (- 60));
              VStr (strftime "%Y-%m-%d" (w_clock w) 0)] []) data) w) in
  lazymatch constr:((fm, fl)) with
  | (Some {| f_content := Pickled ?m; f_mtime := ?tm |},
     Some {| f_content := Pickled ?l; f_mtime := ?tl |}) =>
      apply (@fresh_fetches_spare_the_backend sample_builtins online_engine offline_engine
               the_analyzer 60 w
               {| f_content := Pickled m; f_mtime := tm |}
               {| f_content := Pickled l; f_mtime := tl |} m l);
      [ vm_compute; reflexivity
      | reflexivity
      | discriminate
      | vm_compute; reflexivity
      | vm_compute; reflexivity
      | reflexivity
      | discriminate
      | vm_compute; reflexivity ]
  end.
Defined.

End MoreExamples.
